(** * CapacitiveTouch: the measurement-and-decision loop of captouch.c

    A shallow embedding of [src/CapacitiveTouchExample/captouch.c], the
    one-button pin-oscillator touch sensor for the MSP430G2553.

    The program is straight-line code over process-wide variables and
    memory-mapped peripheral registers.  It is modelled as state
    transformers over a store indexed by the names the source uses; each
    C statement is one line of the model, in the order of the source.

    Integer widths are those of the target: the MSP430 is a 16-bit
    machine, [int] and [unsigned int] are 16 bits wide, the peripheral
    registers written here are 8 or 16 bits wide, and Timer_A counts
    "to 0xFFFF" (line 127 of the source).  Wrap-around is written out
    with [uint16], [sint16] and [uint8]. *)

From Stdlib Require Import ZArith List Lia Bool Ascii String.
Import ListNotations.
Local Open Scope Z_scope.

(** ** Machine integers *)

Definition uint16 (z : Z) : Z := z mod 65536.
Definition sint16 (z : Z) : Z := (z + 32768) mod 65536 - 32768.
Definition uint8 (z : Z) : Z := z mod 256.

Inductive ctype : Type := U8 | U16 | I16.

(** Conversion of a value to a C type, as done by every assignment. *)
Definition cast (t : ctype) (z : Z) : Z :=
  match t with
  | U8 => uint8 z
  | U16 => uint16 z
  | I16 => sint16 z
  end.

(** ** The device header

    The bit names and calibration bytes come from the device header
    (msp430g2553.h), which is not part of the repository.  They are taken
    as parameters; [msp430g2553] below is the instance with the values of
    the vendor's header.  The two calibration bytes are read from the
    information flash and differ from chip to chip; the instance holds
    typical ones. *)

Class Header : Type := {
  BIT0 : Z;
  WDTPW : Z; WDTHOLD : Z; WDTIE : Z;
  WDT_MDLY_0_5 : Z; WDT_ADLY_16 : Z;
  CALBC1_1MHZ : Z; CALDCO_1MHZ : Z; LFXT1S_2 : Z;
  DIVA_0 : Z; DIVA_3 : Z;
  GIE : Z; LPM0_bits : Z; LPM3_bits : Z;
  TASSEL_3 : Z; MC_2 : Z; TACLR : Z;
  CM_3 : Z; CCIS_2 : Z; CCIS0 : Z; CAP : Z
}.

(** What the proofs about the clock divider and the watchdog need to know
    about the header: the two ACLK divider codes are distinct values of
    the field that the mask 0x0CF of lines 101 and 105 clears, and the
    stop command of lines 71 and 143 has the hold bit set while the
    measurement setting of line 138 has not. *)
Record HeaderOk (H : Header) : Prop := {
  DIVA_0_field : Z.land DIVA_0 48 = DIVA_0;
  DIVA_3_field : Z.land DIVA_3 48 = DIVA_3;
  DIVA_distinct : DIVA_0 <> DIVA_3;
  WDTHOLD_nonzero : WDTHOLD <> 0;
  stop_holds : Z.land (uint16 (WDTPW + WDTHOLD)) WDTHOLD = WDTHOLD;
  meas_runs : Z.land (uint16 WDT_MDLY_0_5) WDTHOLD = 0
}.

Definition msp430g2553 : Header := {|
  BIT0 := 1;
  WDTPW := 23040; WDTHOLD := 128; WDTIE := 1;
  WDT_MDLY_0_5 := 23066; WDT_ADLY_16 := 23070;
  CALBC1_1MHZ := 134; CALDCO_1MHZ := 194; LFXT1S_2 := 32;
  DIVA_0 := 0; DIVA_3 := 48;
  GIE := 8; LPM0_bits := 16; LPM3_bits := 208;
  TASSEL_3 := 768; MC_2 := 32; TACLR := 4;
  CM_3 := 49152; CCIS_2 := 8192; CCIS0 := 4096; CAP := 256
|}.

(** ** The store *)

(** The global variables of lines 63-66, the peripheral registers the
    program writes, the CPU status register, and the Timer_A counter. *)
Inductive loc : Type :=
  | base_cnt | meas_cnt | delta_cnt | j | key_pressed | cycles
  | WDTCTL | DCOCTL | BCSCTL1 | BCSCTL3 | IE1 | SR
  | TA0CTL | TA0CCTL1 | TAR | TACCR1
  | P2DIR | P2SEL | P2SEL2.

Definition loc_eq_dec (a b : loc) : {a = b} + {a <> b}.
Proof. decide equality. Defined.

Definition type_of (l : loc) : ctype :=
  match l with
  | base_cnt | meas_cnt => U16
  | delta_cnt | j | cycles => I16
  | key_pressed => U8
  | DCOCTL | BCSCTL1 | BCSCTL3 | IE1 | P2DIR | P2SEL | P2SEL2 => U8
  | WDTCTL | SR | TA0CTL | TA0CCTL1 | TAR | TACCR1 => U16
  end.

Definition is_global (l : loc) : bool :=
  match l with
  | base_cnt | meas_cnt | delta_cnt | j | key_pressed | cycles => true
  | _ => false
  end.

(** What the program sends to the serial port. *)
Inductive event : Type :=
  | Printformat (fmt : string) (args : list Z)
  | Println (line : string).

(** [mem] is the store, [out] the serial output so far, and [nmeas] counts
    the gated measurement windows since power-up: the [k]-th window sees
    [osc k] edges of the pin oscillator. *)
Record state : Type := mkState {
  mem : loc -> Z;
  out : list event;
  nmeas : nat
}.

Notation "s .[ l ]" := (mem s l) (at level 1, left associativity, format "s .[ l ]").

Definition set (l : loc) (v : Z) (s : state) : state :=
  {| mem := fun l' => if loc_eq_dec l l' then v else mem s l';
     out := out s;
     nmeas := nmeas s |}.

(** ** Statements *)

Definition stmt : Type := state -> state.
Definition expr : Type := state -> Z.

Definition skip : stmt := fun s => s.
Definition seq (a b : stmt) : stmt := fun s => b (a s).
Definition assign (l : loc) (e : expr) : stmt :=
  fun s => set l (cast (type_of l) (e s)) s.
Definition ifte (c : state -> bool) (a b : stmt) : stmt :=
  fun s => if c s then a s else b s.
Definition emit (e : state -> event) : stmt :=
  fun s => {| mem := mem s; out := out s ++ [e s]; nmeas := nmeas s |}.

Declare Scope stmt_scope.
Delimit Scope stmt_scope with stmt.
Notation "a ;; b" := (seq a b) (at level 61, left associativity) : stmt_scope.
Notation "l ::= e" := (assign l e) (at level 60, no associativity) : stmt_scope.
Notation "'IF' c 'THEN' a 'ELSE' b 'FI'" := (ifte c a b) (at level 0, c at level 200, a at level 200, b at level 200) : stmt_scope.
Local Open Scope stmt_scope.

(** [for (i = n; i > 0; i--) body] *)
Fixpoint for_down (i : nat) (body : stmt) : stmt :=
  match i with
  | O => skip
  | S i' => body ;; for_down i' body
  end.

(** [n] iterations of the body of [while(1)]. *)
Fixpoint iterate (n : nat) (body : stmt) : stmt :=
  match n with
  | O => skip
  | S n' => body ;; iterate n' body
  end.

(** ** Configuration (lines 38-47) *)

Definition KEY_LVL : Z := 220.

(** The format of the report of line 88.  It ends in a carriage return
    and a line feed, the characters 13 and 10. *)
Definition report_format : string :=
  String.append "Baseline: %i Raw count: %i Difference: %i"
    (String "013"%char (String "010"%char EmptyString)).

Section Program.

Context {H : Header}.

(** Edges of the pin oscillator that Timer_A counts in the [k]-th gated
    window, from the clear of line 139 to the capture of line 141. *)
Variable osc : nat -> Z.

Definition TOUCHPIN : Z := BIT0.
Definition DIV_SMCLK_512 : Z := WDT_MDLY_0_5.
Definition DIV_ACLK_512 : Z := WDT_ADLY_16.
Definition WDT_meas_setting : Z := DIV_SMCLK_512.
Definition WDT_delay_setting : Z := DIV_ACLK_512.

(** ** Hardware reactions

    What the peripherals do in answer to the program, as the comments of
    the source describe it.  The timer reacts to what is written to its
    control registers; the store keeps the value written. *)

(** A write to TA0CTL that sets TACLR resets the counter (line 139:
    "Reset Timer_A (TAR) to zero"); any other write leaves it alone. *)
Definition timer_clear : stmt :=
  IF (fun s => Z.land s.[TA0CTL] (uint16 TACLR) =? uint16 TACLR)
  THEN TAR ::= (fun _ => 0)
  ELSE skip FI.

Definition write_TA0CTL (e : expr) : stmt := TA0CTL ::= e ;; timer_clear.

(** While the CPU sleeps in the gated window the counter advances by the
    edges of the pin oscillator, in continuous mode "to 0xFFFF". *)
Definition timer_count : stmt :=
  fun s =>
    let s' := (TAR ::= (fun s => s.[TAR] + osc (nmeas s))) s in
    {| mem := mem s'; out := out s'; nmeas := S (nmeas s') |}.

(** A write to TA0CCTL1 that toggles the capture input select CCIS0
    latches the counter into TACCR1 (line 141: "Toggle the counter capture
    input to capture count using TACCR1"); any other write captures
    nothing.  [old] is the register before the write. *)
Definition timer_capture (old : Z) : stmt :=
  IF (fun s => Z.land (Z.lxor old s.[TA0CCTL1]) (uint16 CCIS0) =? uint16 CCIS0)
  THEN TACCR1 ::= (fun s => s.[TAR])
  ELSE skip FI.

Definition write_TA0CCTL1 (e : expr) : stmt :=
  fun s => (TA0CCTL1 ::= e ;; timer_capture s.[TA0CCTL1]) s.

(** [__bis_SR_register(bits)] *)
Definition bis_SR_register (bits : Z) : stmt :=
  SR ::= (fun s => Z.lor s.[SR] bits).

(** The interrupt routine of lines 147-151: on return the low-power bits
    are cleared and the program resumes after the sleep request. *)
Definition watchdog_timer : stmt :=
  SR ::= (fun s => Z.land s.[SR] (Z.lnot LPM3_bits)).

(** ** External collaborators *)

(** Modelled from the spec: [UARTConfigure] (UART.h) is not part of the
    repository; section 6 of the spec treats serial set-up as an external
    collaborator.  It touches none of the locations of the store. *)
Definition UARTConfigure : stmt := skip.

(** Modelled from the spec: [printformat] (print.h) is not part of the
    repository; section 6 describes it as fire-and-forget text output.
    The model records the format and the arguments passed. *)
Definition printformat (fmt : string) (args : state -> list Z) : stmt :=
  emit (fun s => Printformat fmt (args s)).

(** Modelled from the spec: [UARTPrintln] (UART.h) is not part of the
    repository; it sends one line, fire-and-forget. *)
Definition UARTPrintln (line : string) : stmt :=
  emit (fun _ => Println line).

(** ** measure_count (lines 125-145) *)

(** Lines 127-138: configure Timer_A and the port and start the gate
    timer. *)
Definition measure_arm (pin : Z) : stmt :=
  write_TA0CTL (fun _ => TASSEL_3 + MC_2) ;;
  write_TA0CCTL1 (fun _ => CM_3 + CCIS_2 + CAP) ;;
  P2DIR ::= (fun s => Z.land s.[P2DIR] (Z.lnot pin)) ;;
  P2SEL ::= (fun s => Z.land s.[P2SEL] (Z.lnot pin)) ;;
  P2SEL2 ::= (fun s => Z.lor s.[P2SEL2] pin) ;;
  WDTCTL ::= (fun _ => WDT_meas_setting).

(** Lines 127-139: then clear the counter. *)
Definition measure_setup (pin : Z) : stmt :=
  measure_arm pin ;;
  write_TA0CTL (fun s => Z.lor s.[TA0CTL] TACLR).

(** Line 140: sleep in LPM0 until the watchdog interval interrupt. *)
Definition measure_gate : stmt :=
  bis_SR_register (LPM0_bits + GIE) ;; timer_count ;; watchdog_timer.

(** Lines 141-144: capture, save the result, stop the watchdog, disconnect
    the pin oscillator. *)
Definition measure_finish (pin : Z) : stmt :=
  write_TA0CCTL1 (fun s => Z.lxor s.[TA0CCTL1] CCIS0) ;;
  meas_cnt ::= (fun s => s.[TACCR1]) ;;
  WDTCTL ::= (fun _ => WDTPW + WDTHOLD) ;;
  P2SEL2 ::= (fun s => Z.land s.[P2SEL2] (Z.lnot pin)).

Definition measure_count (pin : Z) : stmt :=
  measure_setup pin ;; measure_gate ;; measure_finish pin.

(** ** get_base_count (lines 114-123) *)

Definition get_base_count (pin : Z) : stmt :=
  base_cnt ::= (fun _ => 0) ;;
  for_down 16
    (measure_count pin ;;
     base_cnt ::= (fun s => uint16 (s.[meas_cnt] + s.[base_cnt]))) ;;
  base_cnt ::= (fun s => Z.shiftr s.[base_cnt] 4).

(** ** main (lines 70-112) *)

(** Lines 71-82. *)
Definition main_init : stmt :=
  WDTCTL ::= (fun _ => WDTPW + WDTHOLD) ;;
  DCOCTL ::= (fun _ => 0) ;;
  BCSCTL1 ::= (fun _ => CALBC1_1MHZ) ;;
  DCOCTL ::= (fun _ => CALDCO_1MHZ) ;;
  BCSCTL3 ::= (fun s => Z.lor s.[BCSCTL3] LFXT1S_2) ;;
  IE1 ::= (fun s => Z.lor s.[IE1] WDTIE) ;;
  UARTConfigure ;;
  bis_SR_register GIE ;;
  get_base_count TOUCHPIN.

(** Lines 87-88: the delta of this cycle and its report. *)
Definition compute_delta : stmt :=
  delta_cnt ::= (fun s => uint16 (s.[base_cnt] - s.[meas_cnt])) ;;
  printformat report_format
    (fun s => [s.[base_cnt]; s.[meas_cnt]; s.[delta_cnt]]).

(** Lines 91-93: baseline drift correction. *)
Definition baseline_adjust : stmt :=
  IF (fun s => s.[delta_cnt] <? 0)
  THEN base_cnt ::= (fun s => Z.shiftr (uint16 (s.[base_cnt] + s.[meas_cnt])) 1)
  ELSE skip FI.

(** Lines 94-97: threshold decision. *)
Definition threshold : stmt :=
  IF (fun s => s.[delta_cnt] >? KEY_LVL)
  THEN key_pressed ::= (fun _ => 1) ;; UARTPrintln "Presense detected"
  ELSE key_pressed ::= (fun _ => 0) FI.

(** Lines 100-108: choice of the ACLK divider for the delay to the next
    sample.  [cycles-- == 0] compares the old value and decrements in
    either case. *)
Definition sample_rate : stmt :=
  IF (fun s => negb (s.[key_pressed] =? 0))
  THEN BCSCTL1 ::= (fun s => Z.land s.[BCSCTL1] 207 + DIVA_0) ;;
       cycles ::= (fun _ => 20)
  ELSE IF (fun s => s.[cycles] =? 0)
       THEN cycles ::= (fun s => s.[cycles] - 1) ;;
            BCSCTL1 ::= (fun s => Z.land s.[BCSCTL1] 207 + DIVA_3) ;;
            cycles ::= (fun _ => 0)
       ELSE cycles ::= (fun s => s.[cycles] - 1) FI FI.

(** Lines 109-110: start the delay interval and sleep in LPM3 until the
    watchdog interrupt. *)
Definition delay : stmt :=
  WDTCTL ::= (fun _ => WDT_delay_setting) ;;
  bis_SR_register LPM3_bits ;; watchdog_timer.

(** Lines 85-110, the body of [while(1)]. *)
Definition loop_body : stmt :=
  key_pressed ::= (fun _ => 0) ;;
  measure_count TOUCHPIN ;;
  compute_delta ;;
  baseline_adjust ;;
  threshold ;;
  sample_rate ;;
  delay.

(** The state at power-up: the globals hold their initializers (all zero,
    [cycles = 0] on line 66), the registers whatever [hw] says. *)
Definition power_up (hw : loc -> Z) : state :=
  {| mem := fun l => if is_global l then 0 else cast (type_of l) (hw l);
     out := [];
     nmeas := 0 |}.

(** [main] never returns; [main hw n] is the state at the head of the
    loop after [n] full iterations. *)
Definition main (hw : loc -> Z) (n : nat) : state :=
  (main_init ;; iterate n loop_body) (power_up hw).

End Program.

(** ** Observations *)

(** The ACLK divider field of BCSCTL1, the bits cleared by the mask 0x0CF. *)
Definition diva (s : state) : Z := Z.land s.[BCSCTL1] 48.

Definition FAST {H : Header} (s : state) : Prop := diva s = DIVA_0.
Definition SLOW {H : Header} (s : state) : Prop := diva s = DIVA_3.

(** The raw count of the next measurement in state [s]. *)
Definition raw (osc : nat -> Z) (s : state) : Z := uint16 (osc (nmeas s)).

(** A measurement environment given by the list of its first counts. *)
Definition samples (l : list Z) : nat -> Z := fun k => nth k l 0.

(** A bench run on the MSP430G2553: the state at the head of the loop
    after [n] iterations, when the successive measurement windows count
    the edges listed in [l] and every register powers up as zero. *)
Definition bench (l : list Z) (n : nat) : state :=
  main (H := msp430g2553) (samples l) (fun _ => 0) n.

(** Sixteen samples of 4000, then 36000, then 50000. *)
Definition drift_run : list Z := repeat 4000 16 ++ [36000; 50000].

(** Sixteen samples of 1000, then a saturated counter. *)
Definition saturated_run : list Z := repeat 1000 16 ++ [65535].

(** Sixteen samples of 500, a touch at 250, then 21 samples of 500. *)
Definition touch_run : list Z := repeat 500 16 ++ [250] ++ repeat 500 21.

(** Samples of 500 throughout. *)
Definition idle_run : list Z := repeat 500 24.

(** The value line 87 stores in [delta_cnt] for baseline [b] and raw count
    [r]: the 16-bit unsigned difference, converted to [int]. *)
Definition delta_of (b r : Z) : Z := sint16 (uint16 (b - r)).

(** The value line 92 stores in [base_cnt]. *)
Definition average_of (b r : Z) : Z := uint16 (Z.shiftr (uint16 (b + r)) 1).

(** The sum of the [n] raw counts measured from window [k] on. *)
Fixpoint raw_sum (osc : nat -> Z) (k n : nat) : Z :=
  match n with
  | O => 0
  | S n' => uint16 (osc k) + raw_sum osc (S k) n'
  end.

(** The timer, capture and gate registers, and the result of a
    measurement. *)
Definition timer_state (l : loc) : bool :=
  match l with
  | TA0CTL | TA0CCTL1 | TAR | TACCR1 | WDTCTL | meas_cnt => true
  | _ => false
  end.

(** The locations a measurement writes. *)
Definition measure_writes (l : loc) : bool :=
  match l with
  | meas_cnt | TA0CTL | TA0CCTL1 | TAR | TACCR1
  | P2DIR | P2SEL | P2SEL2 | WDTCTL | SR => true
  | _ => false
  end.

(** * Arithmetic of the machine integers *)

Lemma uint16_range (z : Z) : 0 <= uint16 z < 65536.
Proof. unfold uint16. apply Z.mod_pos_bound. lia. Qed.

Lemma uint16_small (z : Z) : 0 <= z < 65536 -> uint16 z = z.
Proof. intros Hz. unfold uint16. apply Z.mod_small. exact Hz. Qed.

Lemma uint16_idem (z : Z) : uint16 (uint16 z) = uint16 z.
Proof. apply uint16_small, uint16_range. Qed.

Lemma sint16_small (z : Z) : -32768 <= z < 32768 -> sint16 z = z.
Proof. intros Hz. unfold sint16. rewrite Z.mod_small by lia. lia. Qed.

Lemma sint16_range (z : Z) : -32768 <= sint16 z < 32768.
Proof.
  unfold sint16.
  pose proof (Z.mod_pos_bound (z + 32768) 65536 ltac:(lia)). lia.
Qed.

Lemma uint8_land (z : Z) : uint8 z = Z.land z 255.
Proof. unfold uint8. change 255 with (Z.ones 8). rewrite Z.land_ones by lia. reflexivity. Qed.

Lemma uint16_land (z : Z) : uint16 z = Z.land z 65535.
Proof. unfold uint16. change 65535 with (Z.ones 16). rewrite Z.land_ones by lia. reflexivity. Qed.

(** Shifting a 16-bit value right stays in range. *)
Lemma shiftr_uint16 (z n : Z) :
  0 <= n -> 0 <= z < 65536 -> uint16 (Z.shiftr z n) = Z.shiftr z n.
Proof.
  intros Hn Hz. apply uint16_small.
  rewrite Z.shiftr_div_pow2 by exact Hn.
  assert (0 < 2 ^ n) by (apply Z.pow_pos_nonneg; lia).
  split.
  - apply Z.div_pos; lia.
  - apply Z.le_lt_trans with z; [apply Z.div_le_upper_bound; nia | lia].
Qed.

(** Writing a divider code into BCSCTL1 with the mask 0x0CF sets the
    divider field to that code, whatever the register held. *)
Lemma diva_write (x d : Z) :
  Z.land d 48 = d -> Z.land (uint8 (Z.land x 207 + d)) 48 = d.
Proof.
  intros Hd.
  assert (Hdisj : Z.land (Z.land x 207) d = 0).
  { rewrite <- Hd. rewrite (Z.land_comm d 48), Z.land_assoc.
    rewrite <- (Z.land_assoc x 207 48). change (Z.land 207 48) with 0.
    rewrite Z.land_0_r. apply Z.land_0_l. }
  rewrite Z.add_nocarry_lxor by exact Hdisj.
  rewrite Z.lxor_lor by exact Hdisj.
  rewrite uint8_land, <- Z.land_assoc. change (Z.land 255 48) with 48.
  rewrite Z.land_lor_distr_l, Hd.
  rewrite <- Z.land_assoc. change (Z.land 207 48) with 0.
  rewrite Z.land_0_r. apply Z.lor_0_l.
Qed.

(** Masking a port register with [~pin] clears every bit of [pin]. *)
Lemma pin_cleared (p pin : Z) :
  Z.land (uint8 (Z.land p (Z.lnot pin))) pin = 0.
Proof.
  rewrite uint8_land.
  apply Z.bits_inj'. intros n Hn.
  rewrite !Z.land_spec, Z.lnot_spec, Z.bits_0 by exact Hn.
  destruct (Z.testbit pin n); simpl; rewrite ?andb_false_r; reflexivity.
Qed.

(** * Equations of the statements *)

Lemma get_set_eq (l : loc) (v : Z) (s : state) : (set l v s).[l] = v.
Proof. unfold set; simpl. destruct (loc_eq_dec l l); [reflexivity | contradiction]. Qed.

Lemma get_set_neq (l l' : loc) (v : Z) (s : state) :
  l <> l' -> (set l v s).[l'] = s.[l'].
Proof. intros Hne. unfold set; simpl. destruct (loc_eq_dec l l'); [contradiction | reflexivity]. Qed.

Lemma assign_eq (l : loc) (e : expr) (s : state) :
  (assign l e s).[l] = cast (type_of l) (e s).
Proof. apply get_set_eq. Qed.

Lemma assign_neq (l l' : loc) (e : expr) (s : state) :
  l <> l' -> (assign l e s).[l'] = s.[l'].
Proof. apply get_set_neq. Qed.

Lemma assign_nmeas (l : loc) (e : expr) (s : state) :
  nmeas (assign l e s) = nmeas s.
Proof. reflexivity. Qed.

Lemma iterate_succ (n : nat) (body : stmt) (s : state) :
  iterate (S n) body s = body (iterate n body s).
Proof.
  revert s. induction n as [|n IH]; intros s.
  - reflexivity.
  - change (iterate (S (S n)) body s) with (iterate (S n) body (body s)).
    rewrite IH. reflexivity.
Qed.

Lemma iterate_add (n m : nat) (body : stmt) (s : state) :
  iterate (n + m) body s = iterate m body (iterate n body s).
Proof.
  revert s. induction n as [|n IH]; intros s; [reflexivity|].
  simpl. unfold seq. apply IH.
Qed.

Section Equations.

Context {H : Header}.
Variable osc : nat -> Z.

(** *** The reactions of Timer_A *)

(** The write of line 139 always carries TACLR. *)
Lemma clear_fires (x : Z) :
  (Z.land (uint16 (Z.lor x TACLR)) (uint16 TACLR) =? uint16 TACLR) = true.
Proof.
  apply Z.eqb_eq. rewrite !uint16_land.
  apply Z.bits_inj'. intros n Hn.
  rewrite !Z.land_spec, Z.lor_spec.
  destruct (Z.testbit x n), (Z.testbit TACLR n), (Z.testbit 65535 n); reflexivity.
Qed.

(** The write of line 141 always toggles CCIS0. *)
Lemma toggle_fires (o : Z) :
  (Z.land (Z.lxor (uint16 o) (uint16 (Z.lxor (uint16 o) CCIS0))) (uint16 CCIS0)
   =? uint16 CCIS0) = true.
Proof.
  apply Z.eqb_eq. rewrite !uint16_land.
  apply Z.bits_inj'. intros n Hn.
  rewrite !Z.land_spec, !Z.lxor_spec, !Z.land_spec, Z.lxor_spec, Z.land_spec.
  destruct (Z.testbit o n), (Z.testbit CCIS0 n), (Z.testbit 65535 n); reflexivity.
Qed.

Lemma write_TA0CTL_TA0CTL (e : expr) (s : state) :
  (write_TA0CTL e s).[TA0CTL] = uint16 (e s).
Proof.
  unfold write_TA0CTL, timer_clear, seq, ifte.
  destruct (_ =? _); [rewrite assign_neq by discriminate|]; apply assign_eq.
Qed.

Lemma write_TA0CTL_TAR (e : expr) (s : state) :
  (write_TA0CTL e s).[TAR] =
  if Z.land (uint16 (e s)) (uint16 TACLR) =? uint16 TACLR then 0 else s.[TAR].
Proof.
  unfold write_TA0CTL, timer_clear, seq, ifte.
  rewrite (assign_eq TA0CTL). change (cast (type_of TA0CTL)) with uint16.
  destruct (_ =? _); [reflexivity | apply assign_neq; discriminate].
Qed.

Lemma write_TA0CTL_frame (e : expr) (s : state) (l : loc) :
  l <> TA0CTL -> l <> TAR -> (write_TA0CTL e s).[l] = s.[l].
Proof.
  intros H1 H2. unfold write_TA0CTL, timer_clear, seq, ifte.
  destruct (_ =? _); [rewrite assign_neq by congruence|]; apply assign_neq; congruence.
Qed.

Lemma write_TA0CTL_nmeas (e : expr) (s : state) :
  nmeas (write_TA0CTL e s) = nmeas s.
Proof. unfold write_TA0CTL, timer_clear, seq, ifte. destruct (_ =? _); reflexivity. Qed.

Lemma write_TA0CTL_out (e : expr) (s : state) :
  out (write_TA0CTL e s) = out s.
Proof. unfold write_TA0CTL, timer_clear, seq, ifte. destruct (_ =? _); reflexivity. Qed.

Lemma write_TA0CCTL1_TA0CCTL1 (e : expr) (s : state) :
  (write_TA0CCTL1 e s).[TA0CCTL1] = uint16 (e s).
Proof.
  unfold write_TA0CCTL1, timer_capture, seq, ifte.
  destruct (_ =? _); [rewrite assign_neq by discriminate|]; apply assign_eq.
Qed.

Lemma write_TA0CCTL1_TACCR1 (e : expr) (s : state) :
  (write_TA0CCTL1 e s).[TACCR1] =
  if Z.land (Z.lxor s.[TA0CCTL1] (uint16 (e s))) (uint16 CCIS0) =? uint16 CCIS0
  then uint16 s.[TAR] else s.[TACCR1].
Proof.
  unfold write_TA0CCTL1, timer_capture, seq, ifte.
  rewrite (assign_eq TA0CCTL1). change (cast (type_of TA0CCTL1)) with uint16.
  destruct (_ =? _); [reflexivity | apply assign_neq; discriminate].
Qed.

Lemma write_TA0CCTL1_frame (e : expr) (s : state) (l : loc) :
  l <> TA0CCTL1 -> l <> TACCR1 -> (write_TA0CCTL1 e s).[l] = s.[l].
Proof.
  intros H1 H2. unfold write_TA0CCTL1, timer_capture, seq, ifte.
  destruct (_ =? _); [rewrite assign_neq by congruence|]; apply assign_neq; congruence.
Qed.

Lemma write_TA0CCTL1_nmeas (e : expr) (s : state) :
  nmeas (write_TA0CCTL1 e s) = nmeas s.
Proof. unfold write_TA0CCTL1, timer_capture, seq, ifte. destruct (_ =? _); reflexivity. Qed.

Lemma write_TA0CCTL1_out (e : expr) (s : state) :
  out (write_TA0CCTL1 e s) = out s.
Proof. unfold write_TA0CCTL1, timer_capture, seq, ifte. destruct (_ =? _); reflexivity. Qed.

Lemma timer_count_frame (s : state) (l : loc) :
  l <> TAR -> (timer_count osc s).[l] = s.[l].
Proof. intros Hl. unfold timer_count. cbv zeta. apply (assign_neq TAR); congruence. Qed.

Lemma assign_out (l : loc) (e : expr) (s : state) : out (assign l e s) = out s.
Proof. reflexivity. Qed.

(** Reads a location through the statements that do not write it. *)
Ltac peel :=
  repeat first
    [ rewrite assign_neq by (discriminate || congruence)
    | rewrite write_TA0CTL_frame by (discriminate || congruence)
    | rewrite write_TA0CCTL1_frame by (discriminate || congruence)
    | rewrite timer_count_frame by (discriminate || congruence) ].

Ltac peel_ghost :=
  repeat first
    [ rewrite assign_nmeas | rewrite write_TA0CTL_nmeas | rewrite write_TA0CCTL1_nmeas
    | rewrite assign_out | rewrite write_TA0CTL_out | rewrite write_TA0CCTL1_out ].

(** *** Lines 127-138 *)

Lemma measure_arm_nmeas (pin : Z) (s : state) : nmeas (measure_arm pin s) = nmeas s.
Proof. unfold measure_arm, seq. peel_ghost. reflexivity. Qed.

Lemma measure_arm_out (pin : Z) (s : state) : out (measure_arm pin s) = out s.
Proof. unfold measure_arm, seq. peel_ghost. reflexivity. Qed.

Lemma measure_arm_TA0CTL (pin : Z) (s : state) :
  (measure_arm pin s).[TA0CTL] = uint16 (TASSEL_3 + MC_2).
Proof. unfold measure_arm, seq. peel. apply write_TA0CTL_TA0CTL. Qed.

Lemma measure_arm_TA0CCTL1 (pin : Z) (s : state) :
  (measure_arm pin s).[TA0CCTL1] = uint16 (CM_3 + CCIS_2 + CAP).
Proof. unfold measure_arm, seq. peel. apply write_TA0CCTL1_TA0CCTL1. Qed.

Lemma measure_arm_WDTCTL (pin : Z) (s : state) :
  (measure_arm pin s).[WDTCTL] = uint16 WDT_MDLY_0_5.
Proof. unfold measure_arm, seq. apply assign_eq. Qed.

(** Up to line 138 the counter is reset only if the mode word of line 127
    itself carries TACLR. *)
Lemma measure_arm_TAR (pin : Z) (s : state) :
  (measure_arm pin s).[TAR] =
  if Z.land (uint16 (TASSEL_3 + MC_2)) (uint16 TACLR) =? uint16 TACLR
  then 0 else s.[TAR].
Proof. unfold measure_arm, seq. peel. apply write_TA0CTL_TAR. Qed.

Lemma measure_arm_P2DIR (pin : Z) (s : state) :
  (measure_arm pin s).[P2DIR] = uint8 (Z.land s.[P2DIR] (Z.lnot pin)).
Proof.
  unfold measure_arm, seq. peel. rewrite (assign_eq P2DIR). cbv beta. peel.
  reflexivity.
Qed.

Lemma measure_arm_P2SEL (pin : Z) (s : state) :
  (measure_arm pin s).[P2SEL] = uint8 (Z.land s.[P2SEL] (Z.lnot pin)).
Proof.
  unfold measure_arm, seq. peel. rewrite (assign_eq P2SEL). cbv beta. peel.
  reflexivity.
Qed.

Lemma measure_arm_P2SEL2 (pin : Z) (s : state) :
  (measure_arm pin s).[P2SEL2] = uint8 (Z.lor s.[P2SEL2] pin).
Proof.
  unfold measure_arm, seq. peel. rewrite (assign_eq P2SEL2). cbv beta. peel.
  reflexivity.
Qed.

Lemma measure_arm_frame (pin : Z) (s : state) (l : loc) :
  measure_writes l = false -> (measure_arm pin s).[l] = s.[l].
Proof.
  intros Hl. unfold measure_arm, seq.
  destruct l; try discriminate Hl; peel; reflexivity.
Qed.

(** *** Line 139 *)

Lemma measure_setup_TAR (pin : Z) (s : state) : (measure_setup pin s).[TAR] = 0.
Proof.
  unfold measure_setup, seq. rewrite write_TA0CTL_TAR. cbv beta.
  rewrite clear_fires. reflexivity.
Qed.

Lemma measure_setup_TA0CTL (pin : Z) (s : state) :
  (measure_setup pin s).[TA0CTL] = uint16 (Z.lor (uint16 (TASSEL_3 + MC_2)) TACLR).
Proof.
  unfold measure_setup, seq. rewrite write_TA0CTL_TA0CTL. cbv beta.
  rewrite measure_arm_TA0CTL. reflexivity.
Qed.

Lemma measure_setup_keeps (pin : Z) (s : state) (l : loc) :
  l <> TA0CTL -> l <> TAR -> (measure_setup pin s).[l] = (measure_arm pin s).[l].
Proof. intros H1 H2. unfold measure_setup, seq. apply write_TA0CTL_frame; assumption. Qed.

Lemma measure_setup_nmeas (pin : Z) (s : state) : nmeas (measure_setup pin s) = nmeas s.
Proof. unfold measure_setup, seq. rewrite write_TA0CTL_nmeas. apply measure_arm_nmeas. Qed.

Lemma measure_setup_out (pin : Z) (s : state) : out (measure_setup pin s) = out s.
Proof. unfold measure_setup, seq. rewrite write_TA0CTL_out. apply measure_arm_out. Qed.

(** *** Line 140 *)

Lemma measure_gate_TAR (s : state) :
  (measure_gate osc s).[TAR] = uint16 (s.[TAR] + osc (nmeas s)).
Proof. reflexivity. Qed.

Lemma measure_gate_keeps (s : state) (l : loc) :
  l <> TAR -> l <> SR -> (measure_gate osc s).[l] = s.[l].
Proof.
  intros H1 H2. unfold measure_gate, bis_SR_register, watchdog_timer, seq.
  peel. reflexivity.
Qed.

Lemma measure_gate_nmeas (s : state) : nmeas (measure_gate osc s) = S (nmeas s).
Proof. reflexivity. Qed.

Lemma measure_gate_out (s : state) : out (measure_gate osc s) = out s.
Proof. reflexivity. Qed.

(** *** Lines 141-144 *)

Lemma measure_finish_TACCR1 (pin o : Z) (s : state) :
  s.[TA0CCTL1] = uint16 o -> (measure_finish pin s).[TACCR1] = uint16 s.[TAR].
Proof.
  intros Ho. unfold measure_finish, seq. peel.
  rewrite write_TA0CCTL1_TACCR1. cbv beta. rewrite Ho, toggle_fires. reflexivity.
Qed.

Lemma measure_finish_meas (pin o : Z) (s : state) :
  s.[TA0CCTL1] = uint16 o -> (measure_finish pin s).[meas_cnt] = uint16 (uint16 s.[TAR]).
Proof.
  intros Ho. unfold measure_finish, seq. peel.
  rewrite (assign_eq meas_cnt). cbv beta.
  rewrite write_TA0CCTL1_TACCR1. cbv beta. rewrite Ho, toggle_fires. reflexivity.
Qed.

Lemma measure_finish_TA0CCTL1 (pin : Z) (s : state) :
  (measure_finish pin s).[TA0CCTL1] = uint16 (Z.lxor s.[TA0CCTL1] CCIS0).
Proof. unfold measure_finish, seq. peel. apply write_TA0CCTL1_TA0CCTL1. Qed.

Lemma measure_finish_WDTCTL (pin : Z) (s : state) :
  (measure_finish pin s).[WDTCTL] = uint16 (WDTPW + WDTHOLD).
Proof. unfold measure_finish, seq. peel. apply assign_eq. Qed.

Lemma measure_finish_P2SEL2 (pin : Z) (s : state) :
  (measure_finish pin s).[P2SEL2] = uint8 (Z.land s.[P2SEL2] (Z.lnot pin)).
Proof.
  unfold measure_finish, seq. rewrite (assign_eq P2SEL2). cbv beta. peel. reflexivity.
Qed.

Lemma measure_finish_keeps (pin : Z) (s : state) (l : loc) :
  l <> TA0CCTL1 -> l <> TACCR1 -> l <> meas_cnt -> l <> WDTCTL -> l <> P2SEL2 ->
  (measure_finish pin s).[l] = s.[l].
Proof. intros H1 H2 H3 H4 H5. unfold measure_finish, seq. peel. reflexivity. Qed.

Lemma measure_finish_nmeas (pin : Z) (s : state) : nmeas (measure_finish pin s) = nmeas s.
Proof. unfold measure_finish, seq. peel_ghost. reflexivity. Qed.

Lemma measure_finish_out (pin : Z) (s : state) : out (measure_finish pin s) = out s.
Proof. unfold measure_finish, seq. peel_ghost. reflexivity. Qed.

(** *** Lines 125-145 *)

(** The counter at the end of the gate holds the edges of this window. *)
Lemma gate_count (pin : Z) (s : state) :
  (measure_gate osc (measure_setup pin s)).[TAR] = raw osc s.
Proof.
  rewrite measure_gate_TAR, measure_setup_TAR, measure_setup_nmeas. reflexivity.
Qed.

Lemma gate_TA0CCTL1 (pin : Z) (s : state) :
  (measure_gate osc (measure_setup pin s)).[TA0CCTL1] = uint16 (CM_3 + CCIS_2 + CAP).
Proof.
  rewrite measure_gate_keeps, measure_setup_keeps by discriminate.
  apply measure_arm_TA0CCTL1.
Qed.

(** A measurement stores the wrapped edge count of its window in
    [meas_cnt], whatever the counter held before. *)
Lemma measure_count_meas (pin : Z) (s : state) :
  (measure_count osc pin s).[meas_cnt] = raw osc s.
Proof.
  unfold measure_count, seq.
  rewrite (measure_finish_meas pin _ _ (gate_TA0CCTL1 pin s)), gate_count.
  unfold raw. rewrite !uint16_idem. reflexivity.
Qed.

Lemma measure_count_nmeas (pin : Z) (s : state) :
  nmeas (measure_count osc pin s) = S (nmeas s).
Proof.
  unfold measure_count, seq.
  rewrite measure_finish_nmeas, measure_gate_nmeas, measure_setup_nmeas. reflexivity.
Qed.

Lemma measure_count_out (pin : Z) (s : state) :
  out (measure_count osc pin s) = out s.
Proof.
  unfold measure_count, seq.
  rewrite measure_finish_out, measure_gate_out. apply measure_setup_out.
Qed.

Lemma measure_count_frame (pin : Z) (s : state) (l : loc) :
  measure_writes l = false -> (measure_count osc pin s).[l] = s.[l].
Proof.
  intros Hl. unfold measure_count, seq.
  rewrite measure_finish_keeps, measure_gate_keeps, measure_setup_keeps
    by (intros ->; discriminate Hl).
  apply measure_arm_frame, Hl.
Qed.

End Equations.

Section CycleEquations.

Context {H : Header}.
Variable osc : nat -> Z.

(** *** Lines 87-88 *)

Lemma compute_delta_delta (s : state) :
  (compute_delta s).[delta_cnt] = delta_of s.[base_cnt] s.[meas_cnt].
Proof. reflexivity. Qed.

Lemma compute_delta_frame (s : state) (l : loc) :
  l <> delta_cnt -> (compute_delta s).[l] = s.[l].
Proof. destruct l; intros Hl; try contradiction; reflexivity. Qed.

(** *** Lines 91-93 *)

Lemma baseline_adjust_base (s : state) :
  (baseline_adjust s).[base_cnt] =
  if s.[delta_cnt] <? 0 then average_of s.[base_cnt] s.[meas_cnt] else s.[base_cnt].
Proof.
  unfold baseline_adjust, ifte.
  destruct (s.[delta_cnt] <? 0); reflexivity.
Qed.

Lemma baseline_adjust_frame (s : state) (l : loc) :
  l <> base_cnt -> (baseline_adjust s).[l] = s.[l].
Proof.
  unfold baseline_adjust, ifte. intros Hl.
  destruct (s.[delta_cnt] <? 0); [|reflexivity].
  destruct l; try contradiction; reflexivity.
Qed.

(** *** Lines 94-97 *)

Lemma threshold_key (s : state) :
  (threshold s).[key_pressed] = if s.[delta_cnt] >? KEY_LVL then 1 else 0.
Proof.
  unfold threshold, ifte.
  destruct (s.[delta_cnt] >? KEY_LVL); reflexivity.
Qed.

Lemma threshold_frame (s : state) (l : loc) :
  l <> key_pressed -> (threshold s).[l] = s.[l].
Proof.
  unfold threshold, ifte. intros Hl.
  destruct (s.[delta_cnt] >? KEY_LVL); destruct l; try contradiction; reflexivity.
Qed.

(** *** Lines 100-108 *)

Lemma sample_rate_cycles (s : state) :
  (sample_rate s).[cycles] =
  if s.[key_pressed] =? 0
  then if s.[cycles] =? 0 then 0 else sint16 (s.[cycles] - 1)
  else 20.
Proof.
  unfold sample_rate, ifte.
  destruct (s.[key_pressed] =? 0); simpl negb; cbv iota;
    [destruct (s.[cycles] =? 0)|]; reflexivity.
Qed.

Lemma sample_rate_BCSCTL1 (s : state) :
  (sample_rate s).[BCSCTL1] =
  if s.[key_pressed] =? 0
  then if s.[cycles] =? 0 then uint8 (Z.land s.[BCSCTL1] 207 + DIVA_3) else s.[BCSCTL1]
  else uint8 (Z.land s.[BCSCTL1] 207 + DIVA_0).
Proof.
  unfold sample_rate, ifte.
  destruct (s.[key_pressed] =? 0); simpl negb; cbv iota;
    [destruct (s.[cycles] =? 0)|]; reflexivity.
Qed.

Lemma sample_rate_frame (s : state) (l : loc) :
  l <> cycles -> l <> BCSCTL1 -> (sample_rate s).[l] = s.[l].
Proof.
  unfold sample_rate, ifte. intros Hc Hb.
  destruct (s.[key_pressed] =? 0); simpl negb; cbv iota;
    [destruct (s.[cycles] =? 0)|];
    destruct l; try contradiction; reflexivity.
Qed.

(** *** Lines 109-110 *)

Lemma delay_frame (s : state) (l : loc) :
  l <> WDTCTL -> l <> SR -> (delay s).[l] = s.[l].
Proof. destruct l; intros Hw Hs; try contradiction; reflexivity. Qed.

(** *** Lines 85-110: one iteration of the loop

    With [b] the baseline and [r] the raw count of the cycle. *)

Ltac through_tail :=
  unfold loop_body, seq;
  rewrite ?delay_frame by discriminate;
  rewrite ?sample_rate_frame by discriminate;
  rewrite ?threshold_frame by discriminate;
  rewrite ?baseline_adjust_frame by discriminate.

Lemma no_ops_nmeas (s : state) :
  nmeas (delay (sample_rate (threshold (baseline_adjust (compute_delta s))))) = nmeas s.
Proof.
  unfold sample_rate, threshold, baseline_adjust, ifte.
  destruct (_ <? 0); destruct (_ >? KEY_LVL); simpl negb; cbv iota;
    try destruct (_ =? 0); reflexivity.
Qed.

Lemma loop_body_nmeas (s : state) : nmeas (loop_body osc s) = S (nmeas s).
Proof.
  unfold loop_body, seq. rewrite no_ops_nmeas, measure_count_nmeas. reflexivity.
Qed.

Lemma loop_body_meas (s : state) : (loop_body osc s).[meas_cnt] = raw osc s.
Proof.
  through_tail. rewrite compute_delta_frame by discriminate.
  rewrite measure_count_meas. reflexivity.
Qed.

Lemma loop_body_delta (s : state) :
  (loop_body osc s).[delta_cnt] = delta_of s.[base_cnt] (raw osc s).
Proof.
  through_tail. rewrite compute_delta_delta, measure_count_meas.
  rewrite measure_count_frame by reflexivity. reflexivity.
Qed.

Lemma loop_body_base (s : state) :
  (loop_body osc s).[base_cnt] =
  if delta_of s.[base_cnt] (raw osc s) <? 0
  then average_of s.[base_cnt] (raw osc s)
  else s.[base_cnt].
Proof.
  through_tail. rewrite baseline_adjust_base.
  rewrite compute_delta_delta, !compute_delta_frame by discriminate.
  rewrite measure_count_meas, measure_count_frame by reflexivity. reflexivity.
Qed.

Lemma loop_body_key (s : state) :
  (loop_body osc s).[key_pressed] =
  if delta_of s.[base_cnt] (raw osc s) >? KEY_LVL then 1 else 0.
Proof.
  through_tail. rewrite threshold_key, baseline_adjust_frame by discriminate.
  rewrite compute_delta_delta, measure_count_meas.
  rewrite measure_count_frame by reflexivity. reflexivity.
Qed.

(** The two variables of the sample-rate controller after a cycle, by
    whether the cycle was touched. *)
Lemma loop_body_cycles (s : state) :
  (loop_body osc s).[cycles] =
  if delta_of s.[base_cnt] (raw osc s) >? KEY_LVL
  then 20
  else if s.[cycles] =? 0 then 0 else sint16 (s.[cycles] - 1).
Proof.
  through_tail. rewrite sample_rate_cycles, threshold_key.
  rewrite (threshold_frame _ cycles) by discriminate.
  rewrite !baseline_adjust_frame by discriminate.
  rewrite compute_delta_delta, compute_delta_frame by discriminate.
  rewrite measure_count_meas, !measure_count_frame by reflexivity.
  destruct (_ >? KEY_LVL); reflexivity.
Qed.

Lemma loop_body_BCSCTL1 (s : state) :
  (loop_body osc s).[BCSCTL1] =
  if delta_of s.[base_cnt] (raw osc s) >? KEY_LVL
  then uint8 (Z.land s.[BCSCTL1] 207 + DIVA_0)
  else if s.[cycles] =? 0
       then uint8 (Z.land s.[BCSCTL1] 207 + DIVA_3)
       else s.[BCSCTL1].
Proof.
  through_tail. rewrite sample_rate_BCSCTL1, threshold_key.
  rewrite (threshold_frame _ cycles), (threshold_frame _ BCSCTL1) by discriminate.
  rewrite !baseline_adjust_frame by discriminate.
  rewrite compute_delta_delta, !compute_delta_frame by discriminate.
  rewrite measure_count_meas, !measure_count_frame by reflexivity.
  destruct (_ >? KEY_LVL); reflexivity.
Qed.

Lemma loop_body_key_01 (s : state) :
  (loop_body osc s).[key_pressed] = 0 \/ (loop_body osc s).[key_pressed] = 1.
Proof. rewrite loop_body_key. destruct (_ >? KEY_LVL); auto. Qed.

End CycleEquations.

(** * Frame of the baseline acquisition *)

Section AcquisitionFrame.

Context {H : Header}.
Variable osc : nat -> Z.

(** The loop of lines 118-121 writes [base_cnt] and what a measurement
    writes, nothing else. *)
Lemma for_down_frame (pin : Z) (i : nat) (s : state) (l : loc) :
  measure_writes l = false -> l <> base_cnt ->
  (for_down i
     (measure_count osc pin ;;
      base_cnt ::= (fun s => uint16 (s.[meas_cnt] + s.[base_cnt])))%stmt s).[l] = s.[l].
Proof.
  intros Hw Hb. revert s. induction i as [|i IH]; intros s; [reflexivity|].
  simpl for_down. unfold seq at 1. rewrite IH.
  unfold seq. rewrite assign_neq by congruence.
  apply measure_count_frame, Hw.
Qed.

Lemma get_base_count_frame (pin : Z) (s : state) (l : loc) :
  measure_writes l = false -> l <> base_cnt ->
  (get_base_count osc pin s).[l] = s.[l].
Proof.
  intros Hw Hb. unfold get_base_count. unfold seq at 1 2.
  rewrite assign_neq by congruence.
  rewrite for_down_frame by assumption.
  apply assign_neq. congruence.
Qed.

(** After the loop [meas_cnt] holds the raw count of the last window. *)
Lemma for_down_meas (pin : Z) (i : nat) (s : state) :
  (for_down (S i)
     (measure_count osc pin ;;
      base_cnt ::= (fun s => uint16 (s.[meas_cnt] + s.[base_cnt])))%stmt s).[meas_cnt]
  = uint16 (osc (nmeas s + i)).
Proof.
  revert s. induction i as [|i IH]; intros s.
  - simpl for_down. unfold seq, skip.
    rewrite assign_neq by discriminate. rewrite measure_count_meas.
    unfold raw. rewrite Nat.add_0_r. reflexivity.
  - change (for_down (S (S i)) ?b s) with (for_down (S i) b (b s)).
    rewrite IH. unfold seq. rewrite assign_nmeas, measure_count_nmeas.
    f_equal. f_equal. lia.
Qed.

Lemma for_down_out (pin : Z) (i : nat) (s : state) :
  out (for_down i
         (measure_count osc pin ;;
          base_cnt ::= (fun s => uint16 (s.[meas_cnt] + s.[base_cnt])))%stmt s) = out s.
Proof.
  revert s. induction i as [|i IH]; intros s; [reflexivity|].
  simpl for_down. unfold seq at 1. rewrite IH. unfold seq.
  rewrite assign_out. apply measure_count_out.
Qed.

(** Baseline acquisition sends nothing. *)
Lemma get_base_count_out (pin : Z) (s : state) :
  out (get_base_count osc pin s) = out s.
Proof.
  unfold get_base_count. unfold seq at 1 2.
  rewrite assign_out, for_down_out. apply assign_out.
Qed.

Lemma get_base_count_meas (pin : Z) (s : state) :
  (get_base_count osc pin s).[meas_cnt] = uint16 (osc (nmeas s + 15)).
Proof.
  unfold get_base_count. unfold seq at 1 2.
  rewrite assign_neq by discriminate.
  rewrite for_down_meas, assign_nmeas. reflexivity.
Qed.

End AcquisitionFrame.

(** * The touch decision and the baseline *)

Section Decision.

Context {H : Header}.
Variable osc : nat -> Z.

Lemma touched_delta (s : state) :
  (loop_body osc s).[key_pressed] = 1 <->
  delta_of s.[base_cnt] (raw osc s) > KEY_LVL.
Proof.
  rewrite loop_body_key.
  destruct (Z.gtb_spec (delta_of s.[base_cnt] (raw osc s)) KEY_LVL);
    split; intros; try lia; discriminate.
Qed.

Lemma untouched_delta (s : state) :
  (loop_body osc s).[key_pressed] = 0 <->
  delta_of s.[base_cnt] (raw osc s) <= KEY_LVL.
Proof.
  rewrite loop_body_key.
  destruct (Z.gtb_spec (delta_of s.[base_cnt] (raw osc s)) KEY_LVL);
    split; intros; try lia; discriminate.
Qed.

Lemma untouched_gtb (s : state) :
  (loop_body osc s).[key_pressed] = 0 ->
  (delta_of s.[base_cnt] (raw osc s) >? KEY_LVL) = false.
Proof.
  rewrite untouched_delta. intros Hle.
  destruct (Z.gtb_spec (delta_of s.[base_cnt] (raw osc s)) KEY_LVL); [lia | reflexivity].
Qed.

Lemma touched_gtb (s : state) :
  (loop_body osc s).[key_pressed] = 1 ->
  (delta_of s.[base_cnt] (raw osc s) >? KEY_LVL) = true.
Proof.
  rewrite touched_delta. intros Hgt.
  destruct (Z.gtb_spec (delta_of s.[base_cnt] (raw osc s)) KEY_LVL); [reflexivity | lia].
Qed.

(** C1. In every cycle the touch decision is taken on the delta of the
    baseline the cycle started with: [key_pressed] is 1 exactly when
    [delta_cnt > KEY_LVL], with [KEY_LVL = 220], and 0 otherwise.  With a
    baseline of 500, a raw count of 250 gives delta 250 and a touch, and a
    raw count of 400 gives delta 100 and no touch. *)
Theorem touch_decision (s : state) :
  let s' := loop_body osc s in
  s'.[delta_cnt] = delta_of s.[base_cnt] (raw osc s) /\
  (s'.[key_pressed] = 1 <-> s'.[delta_cnt] > KEY_LVL) /\
  (s'.[key_pressed] = 0 <-> s'.[delta_cnt] <= KEY_LVL) /\
  KEY_LVL = 220 /\
  (s.[base_cnt] = 500 -> raw osc s = 250 ->
   s'.[delta_cnt] = 250 /\ s'.[key_pressed] = 1) /\
  (s.[base_cnt] = 500 -> raw osc s = 400 ->
   s'.[delta_cnt] = 100 /\ s'.[key_pressed] = 0).
Proof.
  intros s'. subst s'.
  rewrite loop_body_delta.
  split; [reflexivity|].
  split; [apply touched_delta|].
  split; [apply untouched_delta|].
  split; [reflexivity|].
  split; intros Hb Hr; rewrite Hb, Hr; (split; [reflexivity|]).
  - apply touched_delta. rewrite Hb, Hr. reflexivity.
  - apply untouched_delta. rewrite Hb, Hr. discriminate.
Qed.

(** C9. A touched cycle leaves the baseline as it found it. *)
Theorem touch_keeps_baseline (s : state) :
  (loop_body osc s).[key_pressed] = 1 ->
  (loop_body osc s).[delta_cnt] > KEY_LVL /\
  (loop_body osc s).[delta_cnt] >= 0 /\
  (loop_body osc s).[base_cnt] = s.[base_cnt].
Proof.
  intros Hk. apply touched_delta in Hk.
  rewrite loop_body_delta, loop_body_base.
  unfold KEY_LVL in *.
  destruct (Z.ltb_spec (delta_of s.[base_cnt] (raw osc s)) 0); [lia|].
  repeat split; lia.
Qed.

(** One cycle whose raw count equals the baseline. *)
Lemma fixed_point_cycle (s : state) :
  raw osc s = s.[base_cnt] ->
  (loop_body osc s).[base_cnt] = s.[base_cnt] /\
  (loop_body osc s).[delta_cnt] = 0 /\
  (loop_body osc s).[key_pressed] = 0.
Proof.
  intros Hr.
  rewrite loop_body_base, loop_body_delta, loop_body_key, Hr.
  unfold delta_of. rewrite Z.sub_diag. repeat split; reflexivity.
Qed.

(** C7. Cycles whose raw count equals the current baseline leave the
    baseline unchanged, give a delta of zero and never assert a touch,
    however many of them follow one another. *)
Theorem fixed_point_idempotent (s : state) (n : nat) :
  (forall i, (i < n)%nat ->
     raw osc (iterate i (loop_body osc) s) = (iterate i (loop_body osc) s).[base_cnt]) ->
  forall k, (k <= n)%nat ->
    (iterate k (loop_body osc) s).[base_cnt] = s.[base_cnt] /\
    ((0 < k)%nat ->
       (iterate k (loop_body osc) s).[delta_cnt] = 0 /\
       (iterate k (loop_body osc) s).[key_pressed] = 0).
Proof.
  intros Hraw k. induction k as [|k IH]; intros Hk.
  - split; [reflexivity | lia].
  - destruct (IH ltac:(lia)) as [Hb _].
    rewrite iterate_succ.
    destruct (fixed_point_cycle (iterate k (loop_body osc) s) (Hraw k ltac:(lia)))
      as (Hb' & Hd' & Hk').
    split; [congruence | intros _; split; assumption].
Qed.

End Decision.

(** * The sample-rate controller *)

Section SampleRate.

Context {H : Header}.
Hypothesis ok : HeaderOk H.
Variable osc : nat -> Z.

(** Line 101 selects the fast divider and line 102 opens the grace period. *)
Lemma touched_fast (s : state) :
  (loop_body osc s).[key_pressed] = 1 ->
  FAST (loop_body osc s) /\ (loop_body osc s).[cycles] = 20.
Proof.
  intros Hk. apply touched_gtb in Hk.
  unfold FAST, diva. rewrite loop_body_BCSCTL1, loop_body_cycles, Hk.
  split; [apply diva_write, (DIVA_0_field H ok) | reflexivity].
Qed.

(** Line 104 with a counter that has not run out: the counter goes down
    by one and BCSCTL1 is not written. *)
Lemma untouched_countdown (s : state) :
  (loop_body osc s).[key_pressed] = 0 ->
  0 < s.[cycles] <= 32767 ->
  (loop_body osc s).[cycles] = s.[cycles] - 1 /\
  (loop_body osc s).[BCSCTL1] = s.[BCSCTL1].
Proof.
  intros Hk Hc. apply untouched_gtb in Hk.
  rewrite loop_body_BCSCTL1, loop_body_cycles, Hk.
  destruct (Z.eqb_spec s.[cycles] 0); [lia|].
  split; [apply sint16_small; lia | reflexivity].
Qed.

(** Lines 104-107 with a counter that has run out: the slow divider is
    selected and the counter is put back to zero. *)
Lemma untouched_expired (s : state) :
  (loop_body osc s).[key_pressed] = 0 ->
  s.[cycles] = 0 ->
  SLOW (loop_body osc s) /\ (loop_body osc s).[cycles] = 0.
Proof.
  intros Hk Hc. apply untouched_gtb in Hk.
  unfold SLOW, diva. rewrite loop_body_BCSCTL1, loop_body_cycles, Hk, Hc.
  split; [apply diva_write, (DIVA_3_field H ok) | reflexivity].
Qed.

(** A cycle that starts fast with at least [m >= 1] grace cycles left
    ends fast with at least [m - 1] left, touched or not. *)
Lemma grace_step (s : state) (m : Z) :
  1 <= m -> FAST s -> m <= s.[cycles] <= 20 ->
  FAST (loop_body osc s) /\ m - 1 <= (loop_body osc s).[cycles] <= 20.
Proof.
  intros Hm Hf Hc.
  destruct (loop_body_key_01 osc s) as [Hk | Hk].
  - destruct (untouched_countdown s Hk ltac:(lia)) as [Hc' Hb'].
    unfold FAST, diva in *. rewrite Hb', Hc'. split; [assumption | lia].
  - destruct (touched_fast s Hk) as [Hf' Hc']. rewrite Hc'. split; [assumption | lia].
Qed.

Lemma grace_run (s : state) :
  FAST s -> s.[cycles] = 20 ->
  forall k, (k <= 20)%nat ->
    FAST (iterate k (loop_body osc) s) /\
    20 - Z.of_nat k <= (iterate k (loop_body osc) s).[cycles] <= 20.
Proof.
  intros Hf Hc k. induction k as [|k IH]; intros Hk.
  - simpl. unfold skip. split; [assumption | lia].
  - destruct (IH ltac:(lia)) as [Hf' Hc'].
    rewrite iterate_succ.
    destruct (grace_step _ (20 - Z.of_nat k) ltac:(lia) Hf' Hc') as [Hf'' Hc''].
    split; [assumption | lia].
Qed.

(** Without a touch the counter goes down by one per cycle. *)
Lemma countdown_run (s : state) :
  s.[cycles] = 20 ->
  forall k, (k <= 20)%nat ->
    (forall i, (i < k)%nat -> (iterate (S i) (loop_body osc) s).[key_pressed] = 0) ->
    (iterate k (loop_body osc) s).[cycles] = 20 - Z.of_nat k.
Proof.
  intros Hc k. induction k as [|k IH]; intros Hk Hun.
  - simpl. unfold skip. lia.
  - assert (IH' := IH ltac:(lia) (fun i Hi => Hun i ltac:(lia))).
    assert (Hun' := Hun k ltac:(lia)).
    rewrite iterate_succ in *.
    destruct (untouched_countdown _ Hun' ltac:(lia)) as [Hc' _]. lia.
Qed.

(** C5. A touched cycle selects the fast divider and sets the grace
    counter to 20.  A cycle without touch decrements a counter that has
    not run out and leaves the divider alone; when it finds the counter
    at zero it selects the slow divider and keeps the counter at zero.
    Hence after a touched cycle the next 20 cycles are fast whatever they
    measure, and the 21st cycle in a row without touch selects the slow
    divider. *)
Theorem sample_rate_control (s : state) :
  (loop_body osc s).[key_pressed] = 1 ->
  let s1 := loop_body osc s in
  (FAST s1 /\ s1.[cycles] = 20) /\
  (forall t, (loop_body osc t).[key_pressed] = 0 -> 0 < t.[cycles] <= 20 ->
     (loop_body osc t).[cycles] = t.[cycles] - 1 /\ diva (loop_body osc t) = diva t) /\
  (forall t, (loop_body osc t).[key_pressed] = 0 -> t.[cycles] = 0 ->
     SLOW (loop_body osc t) /\ (loop_body osc t).[cycles] = 0) /\
  (forall k, (k <= 20)%nat -> FAST (iterate k (loop_body osc) s1)) /\
  ((forall i, (i < 21)%nat -> (iterate (S i) (loop_body osc) s1).[key_pressed] = 0) ->
   SLOW (iterate 21 (loop_body osc) s1) /\ (iterate 21 (loop_body osc) s1).[cycles] = 0) /\
  ~ (FAST s1 /\ SLOW s1).
Proof.
  intros Hk s1. destruct (touched_fast s Hk) as [Hf Hc]. fold s1 in Hf, Hc.
  split; [split; assumption|].
  split.
  { intros t Ht Hct. destruct (untouched_countdown t Ht ltac:(lia)) as [Hc' Hb'].
    unfold diva. rewrite Hb'. split; [assumption | reflexivity]. }
  split; [exact untouched_expired|].
  split; [intros k Hle; apply (grace_run s1 Hf Hc k Hle)|].
  split.
  { intros Hun. rewrite iterate_succ in *.
    apply untouched_expired.
    - rewrite <- iterate_succ. apply Hun. lia.
    - rewrite (countdown_run s1 Hc 20 ltac:(lia) (fun i Hi => Hun i ltac:(lia))).
      reflexivity. }
  intros [Hf' Hs']. unfold FAST, SLOW in *. apply (DIVA_distinct H ok). congruence.
Qed.

(** After power-up and baseline acquisition the grace counter is zero. *)
Lemma main_init_cycles (hw : loc -> Z) : (main osc hw 0).[cycles] = 0.
Proof.
  unfold main, main_init. unfold seq, iterate, skip.
  rewrite get_base_count_frame by (reflexivity || discriminate).
  reflexivity.
Qed.

(** C10. The grace counter is zero when the loop is entered, so a first
    cycle without touch selects the slow divider at once. *)
Theorem no_initial_grace (hw : loc -> Z) :
  (main osc hw 0).[cycles] = 0 /\
  ((main osc hw 1).[key_pressed] = 0 -> SLOW (main osc hw 1)).
Proof.
  split; [apply main_init_cycles|].
  change (main osc hw 1) with (loop_body osc (main osc hw 0)).
  intros Hk. apply (untouched_expired _ Hk (main_init_cycles hw)).
Qed.

End SampleRate.

(** * The oscillation counter *)

Section Measurement.

Context {H : Header}.
Hypothesis ok : HeaderOk H.
Variable osc : nat -> Z.

(** What a measurement leaves in the timer, capture and gate registers. *)
Lemma measure_count_TA0CTL (pin : Z) (s : state) :
  (measure_count osc pin s).[TA0CTL] = uint16 (Z.lor (uint16 (TASSEL_3 + MC_2)) TACLR).
Proof.
  unfold measure_count, seq.
  rewrite measure_finish_keeps, measure_gate_keeps by discriminate.
  apply measure_setup_TA0CTL.
Qed.

Lemma measure_count_TA0CCTL1 (pin : Z) (s : state) :
  (measure_count osc pin s).[TA0CCTL1]
  = uint16 (Z.lxor (uint16 (CM_3 + CCIS_2 + CAP)) CCIS0).
Proof.
  unfold measure_count, seq.
  rewrite measure_finish_TA0CCTL1, gate_TA0CCTL1. reflexivity.
Qed.

Lemma measure_count_TAR (pin : Z) (s : state) :
  (measure_count osc pin s).[TAR] = raw osc s.
Proof.
  unfold measure_count, seq.
  rewrite measure_finish_keeps by discriminate. apply gate_count.
Qed.

Lemma measure_count_TACCR1 (pin : Z) (s : state) :
  (measure_count osc pin s).[TACCR1] = raw osc s.
Proof.
  unfold measure_count, seq.
  rewrite (measure_finish_TACCR1 pin _ _ (gate_TA0CCTL1 osc pin s)), gate_count.
  unfold raw. apply uint16_idem.
Qed.

(** Lines 143-144 leave the watchdog stopped and the pin disconnected. *)
Lemma measure_count_WDTCTL (pin : Z) (s : state) :
  (measure_count osc pin s).[WDTCTL] = uint16 (WDTPW + WDTHOLD).
Proof. unfold measure_count, seq. apply measure_finish_WDTCTL. Qed.

Lemma measure_count_P2SEL2_value (pin : Z) (s : state) :
  (measure_count osc pin s).[P2SEL2]
  = uint8 (Z.land (uint8 (Z.lor s.[P2SEL2] pin)) (Z.lnot pin)).
Proof.
  unfold measure_count, seq.
  rewrite measure_finish_P2SEL2.
  rewrite measure_gate_keeps, measure_setup_keeps by discriminate.
  rewrite measure_arm_P2SEL2. reflexivity.
Qed.

Lemma measure_count_P2DIR (pin : Z) (s : state) :
  (measure_count osc pin s).[P2DIR] = uint8 (Z.land s.[P2DIR] (Z.lnot pin)).
Proof.
  unfold measure_count, seq.
  rewrite measure_finish_keeps, measure_gate_keeps, measure_setup_keeps by discriminate.
  apply measure_arm_P2DIR.
Qed.

Lemma measure_count_P2SEL (pin : Z) (s : state) :
  (measure_count osc pin s).[P2SEL] = uint8 (Z.land s.[P2SEL] (Z.lnot pin)).
Proof.
  unfold measure_count, seq.
  rewrite measure_finish_keeps, measure_gate_keeps, measure_setup_keeps by discriminate.
  apply measure_arm_P2SEL.
Qed.

Lemma measure_count_P2SEL2 (pin : Z) (s : state) :
  Z.land (measure_count osc pin s).[P2SEL2] pin = 0.
Proof. rewrite measure_count_P2SEL2_value. apply pin_cleared. Qed.

(** What a measurement leaves in the timer, capture and gate registers and
    in [meas_cnt] depends on the edges of its own window only. *)
Lemma measure_count_fresh (pin : Z) (s1 s2 : state) (l : loc) :
  nmeas s1 = nmeas s2 -> timer_state l = true ->
  (measure_count osc pin s1).[l] = (measure_count osc pin s2).[l].
Proof.
  intros Hn Hl.
  assert (Hr : raw osc s1 = raw osc s2) by (unfold raw; rewrite Hn; reflexivity).
  destruct l; try discriminate Hl.
  - rewrite !measure_count_meas. exact Hr.
  - rewrite !measure_count_WDTCTL. reflexivity.
  - rewrite !measure_count_TA0CTL. reflexivity.
  - rewrite !measure_count_TA0CCTL1. reflexivity.
  - rewrite !measure_count_TAR. exact Hr.
  - rewrite !measure_count_TACCR1. exact Hr.
Qed.

(** C8. Every measurement starts by overwriting the timer and capture
    control registers and starting the gate timer (lines 127-138); the
    counter is not yet reset at that point.  The write of line 139 then
    resets it, so that the counter is zero, with the gate timer running,
    when the CPU begins to wait, and the count returned is that of this
    window alone.  Before it returns the measurement stops the gate timer
    and clears the oscillator-select bit of the pin.  What it leaves in
    the timer and gate registers does not depend on what they held
    before. *)
Theorem measure_count_reinitializes (pin : Z) (s : state) :
  Z.land (uint16 (TASSEL_3 + MC_2)) (uint16 TACLR) <> uint16 TACLR ->
  ((measure_arm pin s).[TA0CTL] = uint16 (TASSEL_3 + MC_2) /\
   (measure_arm pin s).[TA0CCTL1] = uint16 (CM_3 + CCIS_2 + CAP) /\
   Z.land (measure_arm pin s).[WDTCTL] WDTHOLD = 0 /\
   (measure_arm pin s).[TAR] = s.[TAR]) /\
  ((measure_setup pin s).[TAR] = 0 /\
   Z.land (measure_setup pin s).[WDTCTL] WDTHOLD = 0) /\
  (measure_count osc pin s).[meas_cnt] = raw osc s /\
  ((measure_count osc pin s).[WDTCTL] = uint16 (WDTPW + WDTHOLD) /\
   Z.land (measure_count osc pin s).[WDTCTL] WDTHOLD = WDTHOLD /\
   WDTHOLD <> 0) /\
  Z.land (measure_count osc pin s).[P2SEL2] pin = 0 /\
  (forall s2 l, nmeas s2 = nmeas s -> timer_state l = true ->
     (measure_count osc pin s2).[l] = (measure_count osc pin s).[l]).
Proof.
  intros Hmode.
  split.
  { split; [apply measure_arm_TA0CTL|].
    split; [apply measure_arm_TA0CCTL1|].
    split; [rewrite measure_arm_WDTCTL; apply (meas_runs H ok)|].
    rewrite measure_arm_TAR.
    destruct (Z.eqb_spec (Z.land (uint16 (TASSEL_3 + MC_2)) (uint16 TACLR)) (uint16 TACLR));
      [contradiction | reflexivity]. }
  split.
  { split; [apply measure_setup_TAR|].
    rewrite measure_setup_keeps, measure_arm_WDTCTL by discriminate.
    apply (meas_runs H ok). }
  split; [apply measure_count_meas|].
  split.
  { rewrite measure_count_WDTCTL.
    repeat split; [apply (stop_holds H ok) | apply (WDTHOLD_nonzero H ok)]. }
  split; [apply measure_count_P2SEL2|].
  intros s2 l Hn Hl. apply measure_count_fresh; assumption.
Qed.

End Measurement.

(** * Baseline acquisition *)

Section Baseline.

Context {H : Header}.
Variable osc : nat -> Z.

Lemma uint16_add_r (a b : Z) : uint16 (a + uint16 b) = uint16 (a + b).
Proof. unfold uint16. apply Z.add_mod_idemp_r. lia. Qed.

Lemma raw_sum_range (k n : nat) : 0 <= raw_sum osc k n.
Proof.
  revert k. induction n as [|n IH]; intros k; simpl; [lia|].
  pose proof (uint16_range (osc k)). pose proof (IH (S k)). lia.
Qed.

(** The loop of lines 118-121 adds the next [i] raw counts to [base_cnt],
    modulo 65536, and takes exactly [i] measurements. *)
Lemma accumulate (pin : Z) (i : nat) (s : state) :
  let body :=
    (measure_count osc pin ;;
     base_cnt ::= (fun s => uint16 (s.[meas_cnt] + s.[base_cnt])))%stmt in
  (for_down i body s).[base_cnt]
    = (if Nat.eqb i 0 then s.[base_cnt]
       else uint16 (s.[base_cnt] + raw_sum osc (nmeas s) i)) /\
  nmeas (for_down i body s) = (nmeas s + i)%nat.
Proof.
  intros body. revert s. induction i as [|i IH]; intros s.
  - split; [reflexivity | simpl; unfold skip; lia].
  - change (for_down (S i) body s) with (for_down i body (body s)).
    destruct (IH (body s)) as [Hb Hn]. rewrite Hb, Hn.
    assert (Hbody : (body s).[base_cnt] = uint16 (uint16 (raw osc s + s.[base_cnt]))).
    { unfold body, seq.
      change (uint16 (uint16 ((measure_count osc pin s).[meas_cnt]
                              + (measure_count osc pin s).[base_cnt]))
              = uint16 (uint16 (raw osc s + s.[base_cnt]))).
      rewrite measure_count_meas, measure_count_frame by reflexivity. reflexivity. }
    assert (Hnm : nmeas (body s) = S (nmeas s)).
    { unfold body, seq. rewrite assign_nmeas. apply measure_count_nmeas. }
    rewrite Hbody, Hnm, !uint16_idem.
    split; [|lia].
    destruct i as [|i]; simpl Nat.eqb; cbv iota.
    + change (raw_sum osc (nmeas s) 1) with (raw osc s + 0).
      f_equal. lia.
    + change (raw_sum osc (nmeas s) (S (S i)))
        with (raw osc s + raw_sum osc (S (nmeas s)) (S i)).
      rewrite Z.add_comm, uint16_add_r. f_equal. lia.
Qed.

(** The baseline is the wrapped sum of 16 raw counts, shifted right by 4. *)
Lemma get_base_count_sum (pin : Z) (s : state) :
  (get_base_count osc pin s).[base_cnt]
    = Z.shiftr (uint16 (raw_sum osc (nmeas s) 16)) 4 /\
  nmeas (get_base_count osc pin s) = (nmeas s + 16)%nat.
Proof.
  unfold get_base_count, seq.
  destruct (accumulate pin 16 ((base_cnt ::= (fun _ => 0)) s)) as [Hb Hn].
  cbv zeta in Hb, Hn.
  remember (for_down 16 _ _) as t eqn:Ht. clear Ht.
  rewrite assign_eq, assign_nmeas, Hb, Hn, assign_eq, assign_nmeas.
  simpl Nat.eqb. cbv iota beta.
  change (cast (type_of base_cnt) 0) with 0.
  change (cast (type_of base_cnt)) with uint16.
  rewrite Z.add_0_l.
  split; [apply shiftr_uint16; [lia | apply uint16_range] | reflexivity].
Qed.

(** X2. When the 16 raw counts sum to less than 65536 the baseline is
    their integer average. *)
Lemma get_base_count_average (pin : Z) (s : state) :
  raw_sum osc (nmeas s) 16 < 65536 ->
  (get_base_count osc pin s).[base_cnt] = Z.shiftr (raw_sum osc (nmeas s) 16) 4 /\
  (get_base_count osc pin s).[base_cnt] = raw_sum osc (nmeas s) 16 / 16.
Proof.
  intros Hlt. destruct (get_base_count_sum pin s) as [Hb _].
  rewrite Hb, uint16_small by (pose proof (raw_sum_range (nmeas s) 16); lia).
  split; [reflexivity | apply (Z.shiftr_div_pow2 _ 4); lia].
Qed.

End Baseline.

(** * Counts below 32768

    As long as the baseline and the raw count stay below 32768 no
    operation of the cycle wraps. *)

Lemma sint16_uint16 (z : Z) : sint16 (uint16 z) = sint16 z.
Proof. unfold sint16, uint16. rewrite Z.add_mod_idemp_l by lia. reflexivity. Qed.

Lemma delta_of_exact (b r : Z) :
  -32768 <= b - r < 32768 -> delta_of b r = b - r.
Proof. intros Hd. unfold delta_of. rewrite sint16_uint16. apply sint16_small, Hd. Qed.

Lemma average_of_exact (b r : Z) :
  0 <= b + r < 65536 -> average_of b r = (b + r) / 2.
Proof.
  intros Hs. unfold average_of.
  rewrite (uint16_small (b + r)) by exact Hs.
  rewrite shiftr_uint16 by lia.
  apply (Z.shiftr_div_pow2 _ 1). lia.
Qed.

Section InRange.

Context {H : Header}.
Variable osc : nat -> Z.

Lemma cycle_in_range (s : state) :
  0 <= s.[base_cnt] < 32768 -> raw osc s < 32768 ->
  let b := s.[base_cnt] in
  let r := raw osc s in
  (loop_body osc s).[delta_cnt] = b - r /\
  (loop_body osc s).[base_cnt] = (if b - r <? 0 then (b + r) / 2 else b) /\
  b <= (loop_body osc s).[base_cnt] < 32768.
Proof.
  intros Hb Hr b r. subst b r.
  pose proof (uint16_range (osc (nmeas s))) as Hr0. fold (raw osc s) in Hr0.
  rewrite loop_body_delta, loop_body_base.
  rewrite delta_of_exact by lia.
  split; [reflexivity|].
  destruct (Z.ltb_spec (s.[base_cnt] - raw osc s) 0) as [Hlt | Hge].
  - rewrite average_of_exact by lia.
    split; [reflexivity|].
    split; [apply Z.div_le_lower_bound; lia | apply Z.div_lt_upper_bound; lia].
  - split; [reflexivity | lia].
Qed.

(** X14. Across a run whose raw counts all stay below 32768 the baseline
    never goes down. *)
Lemma baseline_monotone_in_range (s : state) (n : nat) :
  0 <= s.[base_cnt] < 32768 ->
  (forall i, (i < n)%nat -> raw osc (iterate i (loop_body osc) s) < 32768) ->
  forall k, (k < n)%nat ->
    (iterate k (loop_body osc) s).[base_cnt]
      <= (iterate (S k) (loop_body osc) s).[base_cnt] < 32768.
Proof.
  intros Hb Hraw.
  assert (Hinv : forall k, (k <= n)%nat ->
            0 <= (iterate k (loop_body osc) s).[base_cnt] < 32768).
  { induction k as [|k IH]; intros Hk; [exact Hb|].
    rewrite iterate_succ.
    destruct (cycle_in_range _ (IH ltac:(lia)) (Hraw k ltac:(lia))) as (_ & _ & Hm).
    lia. }
  intros k Hk. rewrite iterate_succ.
  destruct (cycle_in_range _ (Hinv k ltac:(lia)) (Hraw k Hk)) as (_ & _ & Hm).
  exact Hm.
Qed.

End InRange.

(** With a baseline of 500 a raw count of 600 gives delta -100, the new
    baseline 550 and no touch. *)
Example drift_correction_500_600 :
  let run := bench (repeat 500 16 ++ [600]) in
  (run 0%nat).[base_cnt] = 500 /\
  (run 1%nat).[delta_cnt] = -100 /\
  (run 1%nat).[base_cnt] = 550 /\
  (run 1%nat).[key_pressed] = 0.
Proof. vm_compute. repeat split; reflexivity. Qed.

(** * Further properties of the program *)

(** ** Bits of the 8- and 16-bit registers *)

Lemma land_testbit (a b : Z) (n : Z) :
  Z.land a b = b -> Z.testbit b n = true -> Z.testbit a n = true.
Proof.
  intros Hab Hb. rewrite <- Hab, Z.land_spec in Hb.
  apply andb_true_iff in Hb. apply Hb.
Qed.

(** A byte masked with [~pin] needs no truncation. *)
Lemma byte_mask (x pin : Z) :
  0 <= x < 256 -> uint8 (Z.land x (Z.lnot pin)) = Z.land x (Z.lnot pin).
Proof.
  intros Hx. rewrite uint8_land, <- Z.land_assoc, (Z.land_comm (Z.lnot pin)), Z.land_assoc.
  rewrite <- uint8_land. unfold uint8. rewrite Z.mod_small by exact Hx. reflexivity.
Qed.

(** Setting and then clearing the bits of [pin] in a byte clears them and
    keeps the others. *)
Lemma byte_set_clear (x pin : Z) :
  0 <= x < 256 ->
  uint8 (Z.land (uint8 (Z.lor x pin)) (Z.lnot pin)) = Z.land x (Z.lnot pin).
Proof.
  intros Hx.
  assert (Hx8 : Z.land x 255 = x).
  { rewrite <- uint8_land. unfold uint8. apply Z.mod_small, Hx. }
  rewrite Z.land_comm in Hx8.
  rewrite !uint8_land.
  apply Z.bits_inj'. intros n Hn.
  rewrite !Z.land_spec, Z.lor_spec, Z.lnot_spec by exact Hn.
  destruct (Z.testbit x n) eqn:Ex.
  - rewrite (land_testbit _ _ _ Hx8 Ex).
    destruct (Z.testbit pin n); reflexivity.
  - destruct (Z.testbit pin n), (Z.testbit 255 n); reflexivity.
Qed.

(** Writing a divider code keeps every bit of BCSCTL1 outside the divider
    field. *)
Lemma diva_write_frame (x d : Z) :
  Z.land d 48 = d -> Z.land (uint8 (Z.land x 207 + d)) 207 = Z.land x 207.
Proof.
  intros Hd.
  assert (Hdisj : Z.land (Z.land x 207) d = 0).
  { rewrite <- Hd. rewrite (Z.land_comm d 48), Z.land_assoc.
    rewrite <- (Z.land_assoc x 207 48). change (Z.land 207 48) with 0.
    rewrite Z.land_0_r. apply Z.land_0_l. }
  rewrite Z.add_nocarry_lxor by exact Hdisj.
  rewrite Z.lxor_lor by exact Hdisj.
  rewrite uint8_land, <- Z.land_assoc. change (Z.land 255 207) with 207.
  rewrite Z.land_lor_distr_l, <- Z.land_assoc, Z.land_diag.
  rewrite <- Hd, <- Z.land_assoc. change (Z.land 48 207) with 0.
  rewrite Z.land_0_r. apply Z.lor_0_r.
Qed.

Lemma average_of_range (b r : Z) : 0 <= average_of b r <= 32767.
Proof.
  unfold average_of.
  pose proof (uint16_range (b + r)) as Hs.
  rewrite shiftr_uint16 by lia.
  rewrite (Z.shiftr_div_pow2 _ 1) by lia. change (2 ^ 1) with 2.
  split; [apply Z.div_pos; lia|].
  assert (uint16 (b + r) / 2 < 32768) by (apply Z.div_lt_upper_bound; lia). lia.
Qed.

(** When the difference is below the range of [int] the stored delta is
    off by 65536. *)
Lemma delta_of_wrapped (b r : Z) :
  -65536 <= b - r < -32768 -> delta_of b r = b - r + 65536.
Proof.
  intros Hd. unfold delta_of. rewrite sint16_uint16. unfold sint16.
  replace (b - r + 32768) with (b - r + 32768 + 65536 + (-1) * 65536) by lia.
  rewrite Z_mod_plus_full, Z.mod_small by lia. lia.
Qed.

Section Reachable.

Context {H : Header}.
Variable osc : nat -> Z.

Lemma main_succ (hw : loc -> Z) (n : nat) :
  main osc hw (S n) = loop_body osc (main osc hw n).
Proof. unfold main, seq. apply iterate_succ. Qed.

Lemma shiftr4_range (z : Z) : 0 <= Z.shiftr (uint16 z) 4 <= 4095.
Proof.
  pose proof (uint16_range z) as Hz.
  rewrite (Z.shiftr_div_pow2 _ 4) by lia. change (2 ^ 4) with 16.
  split; [apply Z.div_pos; lia|].
  assert (uint16 z / 16 < 4096) by (apply Z.div_lt_upper_bound; lia). lia.
Qed.

Lemma main_0_base (hw : loc -> Z) :
  (main osc hw 0).[base_cnt] = Z.shiftr (uint16 (raw_sum osc 0 16)) 4.
Proof.
  unfold main, main_init. unfold seq, iterate, skip.
  match goal with
  | |- context [get_base_count osc TOUCHPIN ?s0] =>
      destruct (get_base_count_sum osc TOUCHPIN s0) as [Hb _]; exact Hb
  end.
Qed.

Lemma main_base_range (hw : loc -> Z) (n : nat) :
  0 <= (main osc hw n).[base_cnt] <= 32767.
Proof.
  induction n as [|n IH].
  - rewrite main_0_base. pose proof (shiftr4_range (raw_sum osc 0 16)). lia.
  - rewrite main_succ, loop_body_base.
    destruct (_ <? 0); [apply average_of_range | exact IH].
Qed.

(** X1. Whatever the state before, [get_base_count] takes exactly 16
    measurements and leaves in [base_cnt] the sum of their raw counts,
    reduced modulo 65536 and shifted right by 4; the result is at most
    4095. *)
Theorem get_base_count_wrapped_average (pin : Z) (s : state) :
  (get_base_count osc pin s).[base_cnt]
    = Z.shiftr (raw_sum osc (nmeas s) 16 mod 65536) 4 /\
  0 <= (get_base_count osc pin s).[base_cnt] <= 4095 /\
  nmeas (get_base_count osc pin s) = (nmeas s + 16)%nat.
Proof.
  destruct (get_base_count_sum osc pin s) as [Hb Hn].
  rewrite Hb, Hn. split; [reflexivity|].
  split; [apply shiftr4_range | reflexivity].
Qed.

(** X3. In every run from power-up the baseline stays between 0 and
    32767, and it is at most 4095 when the loop is entered. *)
Theorem baseline_bounded (hw : loc -> Z) (n : nat) :
  0 <= (main osc hw n).[base_cnt] <= 32767 /\
  (main osc hw 0).[base_cnt] <= 4095.
Proof.
  split; [apply main_base_range|].
  rewrite main_0_base. apply shiftr4_range.
Qed.

Lemma main_cycles_range (hw : loc -> Z) (n : nat) :
  0 <= (main osc hw n).[cycles] <= 20.
Proof.
  induction n as [|n IH].
  - pose proof (main_init_cycles osc hw) as Hc. lia.
  - rewrite main_succ, loop_body_cycles.
    destruct (_ >? KEY_LVL); [lia|].
    destruct (Z.eqb_spec (main osc hw n).[cycles] 0); [lia|].
    rewrite sint16_small by lia. lia.
Qed.

(** X4. In every run from power-up the grace counter is between 0 and 20
    at the head of the loop, so the decrement of line 104 never leaves the
    range of [int]. *)
Theorem cycles_bounded (hw : loc -> Z) (n : nat) :
  0 <= (main osc hw n).[cycles] <= 20 /\
  sint16 ((main osc hw n).[cycles] - 1) = (main osc hw n).[cycles] - 1.
Proof.
  pose proof (main_cycles_range hw n) as Hc.
  split; [exact Hc | apply sint16_small; lia].
Qed.


(** X5. In every run from power-up the drift correction runs only in a
    cycle whose raw count is above the baseline, as the comment on line 91
    says. *)
Theorem drift_fires_only_above_baseline (hw : loc -> Z) (n : nat) :
  (main osc hw (S n)).[delta_cnt] < 0 ->
  (main osc hw n).[base_cnt] < raw osc (main osc hw n) /\
  (main osc hw (S n)).[base_cnt]
    = average_of (main osc hw n).[base_cnt] (raw osc (main osc hw n)).
Proof.
  rewrite main_succ, loop_body_delta, loop_body_base.
  pose proof (main_base_range hw n) as Hb.
  pose proof (uint16_range (osc (nmeas (main osc hw n)))) as Hr.
  fold (raw osc (main osc hw n)) in Hr.
  intros Hd.
  destruct (Z.ltb_spec (delta_of (main osc hw n).[base_cnt] (raw osc (main osc hw n))) 0);
    [|lia].
  split; [|reflexivity].
  destruct (Z.lt_ge_cases (main osc hw n).[base_cnt] (raw osc (main osc hw n)))
    as [Hlt | Hge]; [exact Hlt|].
  rewrite delta_of_exact in Hd by lia. lia.
Qed.

(** X6. In every run from power-up a cycle with baseline [b] and raw
    count [r] reports a touch exactly when [b - r > 220], or when [r]
    exceeds [b] by more than 32768 (and less than 65316), where the 16-bit
    delta has wrapped to a positive value. *)
Theorem touch_from_power_up (hw : loc -> Z) (n : nat) :
  let b := (main osc hw n).[base_cnt] in
  let r := raw osc (main osc hw n) in
  (main osc hw (S n)).[key_pressed] = 1 <->
  (b - r > 220 \/ 32768 < r - b < 65316).
Proof.
  intros b r. rewrite main_succ, touched_delta. fold b r.
  pose proof (main_base_range hw n) as Hb. fold b in Hb.
  pose proof (uint16_range (osc (nmeas (main osc hw n)))) as Hr.
  fold (raw osc (main osc hw n)) in Hr. fold r in Hr.
  unfold KEY_LVL.
  destruct (Z.lt_ge_cases (b - r) (-32768)) as [Hlo | Hhi].
  - rewrite delta_of_wrapped by lia. lia.
  - rewrite delta_of_exact by lia. lia.
Qed.

Lemma main_nmeas (hw : loc -> Z) (n : nat) :
  nmeas (main osc hw n) = (16 + n)%nat.
Proof.
  induction n as [|n IH].
  - unfold main, main_init. unfold seq, iterate, skip.
    match goal with
    | |- context [get_base_count osc TOUCHPIN ?s0] =>
        destruct (get_base_count_sum osc TOUCHPIN s0) as [_ Hn]; rewrite Hn
    end.
    reflexivity.
  - rewrite main_succ, loop_body_nmeas, IH. lia.
Qed.

(** X12. A run from power-up has made 16 measurements when the loop is
    entered and makes exactly one more in every iteration. *)
Theorem one_measurement_per_cycle (hw : loc -> Z) (n : nat) :
  nmeas (main osc hw n) = (16 + n)%nat /\
  nmeas (main osc hw (S n)) = S (nmeas (main osc hw n)).
Proof. rewrite !main_nmeas. split; [reflexivity | lia]. Qed.


End Reachable.

Section Cycle.

Context {H : Header}.
Variable osc : nat -> Z.

(** *** Serial output *)

Lemma compute_delta_out (s : state) :
  out (compute_delta s) =
  out s ++ [Printformat report_format
              [s.[base_cnt]; s.[meas_cnt]; delta_of s.[base_cnt] s.[meas_cnt]]].
Proof. reflexivity. Qed.

Lemma baseline_adjust_out (s : state) : out (baseline_adjust s) = out s.
Proof. unfold baseline_adjust, ifte. destruct (_ <? 0); reflexivity. Qed.

Lemma threshold_out (s : state) :
  out (threshold s) =
  out s ++ (if s.[delta_cnt] >? KEY_LVL then [Println "Presense detected"] else []).
Proof.
  unfold threshold, ifte. destruct (_ >? KEY_LVL); [reflexivity|].
  rewrite app_nil_r. reflexivity.
Qed.

Lemma sample_rate_out (s : state) : out (sample_rate s) = out s.
Proof.
  unfold sample_rate, ifte.
  destruct (_ =? 0); simpl negb; cbv iota; [destruct (_ =? 0)|]; reflexivity.
Qed.

Lemma delay_out (s : state) : out (delay s) = out s.
Proof. reflexivity. Qed.

Lemma raw_assign (l : loc) (e : expr) (s : state) :
  raw osc (assign l e s) = raw osc s.
Proof. reflexivity. Qed.

Lemma tail_out (t : state) :
  out (delay (sample_rate (threshold (baseline_adjust t)))) =
  out t ++ (if t.[delta_cnt] >? KEY_LVL then [Println "Presense detected"] else []).
Proof.
  rewrite delay_out, sample_rate_out, threshold_out, baseline_adjust_out.
  rewrite baseline_adjust_frame by discriminate. reflexivity.
Qed.

Lemma head_out (s : state) :
  out (compute_delta (measure_count osc TOUCHPIN ((key_pressed ::= (fun _ => 0)) s))) =
  out s ++ [Printformat report_format
               [s.[base_cnt]; raw osc s; delta_of s.[base_cnt] (raw osc s)]].
Proof.
  rewrite compute_delta_out.
  rewrite measure_count_meas, measure_count_frame by reflexivity.
  rewrite measure_count_out, raw_assign, assign_neq by discriminate.
  reflexivity.
Qed.

Lemma loop_body_out (s : state) :
  out (loop_body osc s) =
  (out s ++ [Printformat report_format
               [s.[base_cnt]; raw osc s; delta_of s.[base_cnt] (raw osc s)]])
  ++ (if delta_of s.[base_cnt] (raw osc s) >? KEY_LVL
      then [Println "Presense detected"] else []).
Proof.
  change (loop_body osc s) with
    (delay (sample_rate (threshold (baseline_adjust
       (compute_delta (measure_count osc TOUCHPIN ((key_pressed ::= (fun _ => 0)) s))))))).
  rewrite tail_out, head_out, compute_delta_delta.
  rewrite measure_count_meas, measure_count_frame by reflexivity.
  rewrite raw_assign, assign_neq by discriminate.
  reflexivity.
Qed.

(** X7. Nothing is sent before the first cycle.  Every cycle sends exactly
    one report line, with the baseline the cycle started with, the raw
    count and the delta; the line "Presense detected" follows it exactly
    when the delta is above [KEY_LVL], and nothing else is sent. *)
Theorem cycle_report (hw : loc -> Z) (s : state) :
  let b := s.[base_cnt] in
  let r := raw osc s in
  out (main osc hw 0) = [] /\
  out (loop_body osc s) =
  (out s ++ [Printformat report_format
               [b; r; delta_of b r]])
  ++ (if delta_of b r >? KEY_LVL then [Println "Presense detected"] else []).
Proof.
  intros b r. subst b r. split; [|apply loop_body_out].
  unfold main, main_init; unfold seq, iterate, skip.
  rewrite get_base_count_out. reflexivity.
Qed.

(** *** Port 2 *)

(** X8. A measurement clears the bits of [pin] in P2DIR, P2SEL and P2SEL2
    and leaves every other bit of the three port registers, and every
    location it does not write, as it found them. *)
Theorem measure_count_ports (pin : Z) (s : state) :
  0 <= s.[P2DIR] < 256 -> 0 <= s.[P2SEL] < 256 -> 0 <= s.[P2SEL2] < 256 ->
  (measure_count osc pin s).[P2DIR] = Z.land s.[P2DIR] (Z.lnot pin) /\
  (measure_count osc pin s).[P2SEL] = Z.land s.[P2SEL] (Z.lnot pin) /\
  (measure_count osc pin s).[P2SEL2] = Z.land s.[P2SEL2] (Z.lnot pin) /\
  (forall l, measure_writes l = false -> (measure_count osc pin s).[l] = s.[l]).
Proof.
  intros Hdir Hsel Hsel2.
  split; [|split; [|split]].
  - rewrite measure_count_P2DIR. apply byte_mask, Hdir.
  - rewrite measure_count_P2SEL. apply byte_mask, Hsel.
  - rewrite measure_count_P2SEL2_value. apply byte_set_clear, Hsel2.
  - intros l Hl. apply measure_count_frame, Hl.
Qed.

(** *** Counts below 32768 *)

(** X15. In a cycle whose baseline [b] and raw count [r] are both below
    32768 the delta is the signed difference [b - r], a touch is reported
    exactly when [b - r > 220], a raw count above the baseline moves the
    baseline to the average of the two, which lies between them, and any
    other raw count leaves the baseline alone. *)
Theorem cycle_exact_below_32768 (s : state) :
  0 <= s.[base_cnt] < 32768 -> raw osc s < 32768 ->
  let b := s.[base_cnt] in
  let r := raw osc s in
  (loop_body osc s).[delta_cnt] = b - r /\
  ((loop_body osc s).[key_pressed] = 1 <-> b - r > 220) /\
  (b < r -> (loop_body osc s).[base_cnt] = (b + r) / 2 /\
            b <= (loop_body osc s).[base_cnt] <= r) /\
  (r <= b -> (loop_body osc s).[base_cnt] = b).
Proof.
  intros Hb Hr b r.
  pose proof (uint16_range (osc (nmeas s))) as Hr0. fold (raw osc s) in Hr0.
  destruct (cycle_in_range osc s Hb Hr) as (Hd & Hbase & Hm).
  fold b r in Hd, Hbase, Hm, Hr0.
  split; [exact Hd|].
  split.
  { rewrite touched_delta. fold b r. rewrite delta_of_exact by (subst b r; lia).
    unfold KEY_LVL. reflexivity. }
  split.
  - intros Hlt. rewrite Hbase.
    destruct (Z.ltb_spec (b - r) 0); [|lia].
    split; [reflexivity|].
    split; [apply Z.div_le_lower_bound; lia|].
    assert ((b + r) / 2 < r + 1) by (apply Z.div_lt_upper_bound; lia). lia.
  - intros Hle. rewrite Hbase.
    destruct (Z.ltb_spec (b - r) 0); [lia | reflexivity].
Qed.

End Cycle.

Section Controller.

Context {H : Header}.
Hypothesis ok : HeaderOk H.
Variable osc : nat -> Z.

(** X10. Once the grace counter is at zero, cycles without touch keep the
    slow divider selected and the counter at zero, however many of them
    follow. *)
Theorem slow_is_stable (s : state) (n : nat) :
  s.[cycles] = 0 ->
  (forall i, (i < n)%nat -> (iterate (S i) (loop_body osc) s).[key_pressed] = 0) ->
  forall k, (0 < k <= n)%nat ->
    SLOW (iterate k (loop_body osc) s) /\ (iterate k (loop_body osc) s).[cycles] = 0.
Proof.
  intros Hc Hun.
  assert (Hz : forall k, (k <= n)%nat -> (iterate k (loop_body osc) s).[cycles] = 0).
  { induction k as [|k IH]; intros Hk; [exact Hc|].
    assert (Hk' := Hun k ltac:(lia)).
    rewrite iterate_succ in *.
    apply (untouched_expired ok osc _ Hk' (IH ltac:(lia))). }
  intros k Hk. destruct k as [|k]; [lia|].
  assert (Hk' := Hun k ltac:(lia)).
  rewrite iterate_succ in *.
  apply (untouched_expired ok osc _ Hk' (Hz k ltac:(lia))).
Qed.

Lemma main_0_BCSCTL1 (hw : loc -> Z) :
  (main osc hw 0).[BCSCTL1] = uint8 CALBC1_1MHZ.
Proof.
  unfold main, main_init. unfold seq, iterate, skip.
  rewrite get_base_count_frame by (reflexivity || discriminate).
  reflexivity.
Qed.

(** X11. In every run from power-up the program changes nothing in
    BCSCTL1 but the divider field: the bits outside the mask 0x30 are
    those of the calibration byte written on line 73. *)
Theorem calibration_preserved (hw : loc -> Z) (n : nat) :
  Z.land (main osc hw n).[BCSCTL1] 207 = Z.land (uint8 CALBC1_1MHZ) 207.
Proof.
  induction n as [|n IH].
  - rewrite main_0_BCSCTL1. reflexivity.
  - rewrite main_succ, loop_body_BCSCTL1.
    destruct (_ >? KEY_LVL).
    + rewrite diva_write_frame by apply (DIVA_0_field H ok). exact IH.
    + destruct (_ =? 0); [|exact IH].
      rewrite diva_write_frame by apply (DIVA_3_field H ok). exact IH.
Qed.

End Controller.

Section PowerUp.

Context {H : Header}.
Variable osc : nat -> Z.

Lemma main_0_globals (hw1 hw2 : loc -> Z) (l : loc) :
  is_global l = true -> (main osc hw1 0).[l] = (main osc hw2 0).[l].
Proof.
  intros Hl. destruct l; try discriminate Hl.
  1: rewrite !main_0_base; reflexivity.
  all: unfold main, main_init; unfold seq, iterate, skip.
  1: rewrite !get_base_count_meas; reflexivity.
  all: rewrite !get_base_count_frame by (reflexivity || discriminate); reflexivity.
Qed.

Lemma main_power_up (hw1 hw2 : loc -> Z) (n : nat) :
  (forall l, is_global l = true -> (main osc hw1 n).[l] = (main osc hw2 n).[l]) /\
  (main osc hw1 n).[BCSCTL1] = (main osc hw2 n).[BCSCTL1] /\
  out (main osc hw1 n) = out (main osc hw2 n).
Proof.
  induction n as [|n (Hg & Hb & Ho)].
  - split; [apply main_0_globals|].
    split.
    + unfold main, main_init; unfold seq, iterate, skip.
      rewrite !get_base_count_frame by (reflexivity || discriminate). reflexivity.
    + unfold main, main_init; unfold seq, iterate, skip.
      rewrite !get_base_count_out. reflexivity.
  - assert (Hr : raw osc (main osc hw1 n) = raw osc (main osc hw2 n)).
    { unfold raw. rewrite !main_nmeas. reflexivity. }
    assert (Hbase := Hg base_cnt eq_refl).
    assert (Hcyc := Hg cycles eq_refl).
    assert (Hj := Hg j eq_refl).
    rewrite !main_succ.
    split; [|split].
    + intros l Hl. destruct l; try discriminate Hl.
      * rewrite !loop_body_base, Hbase, Hr. reflexivity.
      * rewrite !loop_body_meas. exact Hr.
      * rewrite !loop_body_delta, Hbase, Hr. reflexivity.
      * unfold loop_body, seq.
        rewrite !delay_frame, !sample_rate_frame, !threshold_frame,
          !baseline_adjust_frame, !compute_delta_frame by discriminate.
        rewrite !measure_count_frame by reflexivity.
        rewrite !assign_neq by discriminate. exact Hj.
      * rewrite !loop_body_key, Hbase, Hr. reflexivity.
      * rewrite !loop_body_cycles, Hbase, Hr, Hcyc. reflexivity.
    + rewrite !loop_body_BCSCTL1, Hbase, Hr, Hcyc, Hb. reflexivity.
    + rewrite !loop_body_out, Hbase, Hr, Ho. reflexivity.
Qed.

(** X13. What the registers hold at power-up has no influence on the
    program's variables, on the clock divider it selects or on what it
    sends: two runs that measure the same counts agree on all of them
    after any number of cycles. *)
Theorem power_up_independence (hw1 hw2 : loc -> Z) (n : nat) :
  (forall l, is_global l = true -> (main osc hw1 n).[l] = (main osc hw2 n).[l]) /\
  (main osc hw1 n).[BCSCTL1] = (main osc hw2 n).[BCSCTL1] /\
  out (main osc hw1 n) = out (main osc hw2 n).
Proof. exact (main_power_up hw1 hw2 n). Qed.

End PowerUp.

Section Divider.

Context {H : Header}.
Hypothesis ok : HeaderOk H.
Variable osc : nat -> Z.

(** X16. Baseline acquisition writes [base_cnt] and what the measurements
    write, and nothing else; it sends nothing, and it leaves in [meas_cnt]
    the raw count of its sixteenth window. *)
Theorem get_base_count_effects (pin : Z) (s : state) :
  (forall l, measure_writes l = false -> l <> base_cnt ->
     (get_base_count osc pin s).[l] = s.[l]) /\
  out (get_base_count osc pin s) = out s /\
  (get_base_count osc pin s).[meas_cnt] = uint16 (osc (nmeas s + 15)).
Proof.
  split; [intros l Hw Hb; apply get_base_count_frame; assumption|].
  split; [apply get_base_count_out | apply get_base_count_meas].
Qed.

(** X17. In every run from power-up, from the first cycle on the divider
    field holds one of the two codes the program writes, and it holds the
    fast one whenever grace cycles are left. *)
Theorem divider_invariant (hw : loc -> Z) (n : nat) :
  let s := main osc hw (S n) in
  (FAST s \/ SLOW s) /\ (0 < s.[cycles] -> FAST s).
Proof.
  induction n as [|n IH]; cbv zeta in *.
  - rewrite main_succ.
    destruct (loop_body_key_01 osc (main osc hw 0)) as [Hk | Hk].
    + destruct (untouched_expired ok osc _ Hk (main_init_cycles osc hw)) as [Hs Hc].
      rewrite Hc. split; [right; exact Hs | lia].
    + destruct (touched_fast ok osc _ Hk) as [Hf Hc].
      split; [left; exact Hf | intros _; exact Hf].
  - destruct IH as [Hdiv Hgrace].
    pose proof (main_cycles_range osc hw (S n)) as Hb.
    rewrite (main_succ osc hw (S n)).
    destruct (loop_body_key_01 osc (main osc hw (S n))) as [Hk | Hk].
    + destruct (Z.eq_dec (main osc hw (S n)).[cycles] 0) as [Hz | Hnz].
      * destruct (untouched_expired ok osc _ Hk Hz) as [Hs Hc].
        rewrite Hc. split; [right; exact Hs | lia].
      * destruct (untouched_countdown osc _ Hk ltac:(lia)) as [Hc Hreg].
        assert (Hf : FAST (loop_body osc (main osc hw (S n)))).
        { unfold FAST, diva. rewrite Hreg. apply Hgrace. lia. }
        split; [left; exact Hf | intros _; exact Hf].
    + destruct (touched_fast ok osc _ Hk) as [Hf Hc].
      split; [left; exact Hf | intros _; exact Hf].
Qed.

End Divider.

(** * Runs on the MSP430G2553 *)

Lemma msp430g2553_ok : HeaderOk msp430g2553.
Proof. constructor; vm_compute; congruence. Qed.

(** C2. After a baseline of 4000, a raw count of 36000 moves the baseline
    to 20000.  The next raw count, 50000, gives the negative delta -30000,
    and line 92 stores 2232: the 16-bit sum 20000 + 50000 has wrapped to
    4464.  The average of the two is 35000. *)
Theorem baseline_update_wraps (hw : loc -> Z) :
  let run := main (H := msp430g2553) (samples drift_run) hw in
  (run 1%nat).[base_cnt] = 20000 /\
  raw (samples drift_run) (run 1%nat) = 50000 /\
  (run 2%nat).[delta_cnt] = -30000 /\
  (run 2%nat).[base_cnt] = 2232 /\
  Z.shiftr (20000 + 50000) 1 = 35000.
Proof.
  intros run. subst run.
  destruct (main_power_up (H := msp430g2553) (samples drift_run) hw (fun _ => 0) 1) as (G1 & _).
  destruct (main_power_up (H := msp430g2553) (samples drift_run) hw (fun _ => 0) 2) as (G2 & _).
  rewrite (G1 base_cnt eq_refl), (G2 base_cnt eq_refl), (G2 delta_cnt eq_refl).
  unfold raw. rewrite main_nmeas.
  vm_compute. repeat split; reflexivity.
Qed.

(** C3. In the same run every raw count is above the baseline of its
    cycle, yet the second cycle moves the baseline down, from 20000 to
    2232. *)
Theorem baseline_moves_down (hw : loc -> Z) :
  let run := main (H := msp430g2553) (samples drift_run) hw in
  ((run 0%nat).[base_cnt] = 4000 /\ raw (samples drift_run) (run 0%nat) = 36000) /\
  ((run 1%nat).[base_cnt] = 20000 /\ raw (samples drift_run) (run 1%nat) = 50000) /\
  (run 2%nat).[base_cnt] = 2232 /\
  (run 2%nat).[base_cnt] < (run 1%nat).[base_cnt].
Proof.
  intros run. subst run.
  destruct (main_power_up (H := msp430g2553) (samples drift_run) hw (fun _ => 0) 0) as (G0 & _).
  destruct (main_power_up (H := msp430g2553) (samples drift_run) hw (fun _ => 0) 1) as (G1 & _).
  destruct (main_power_up (H := msp430g2553) (samples drift_run) hw (fun _ => 0) 2) as (G2 & _).
  rewrite (G0 base_cnt eq_refl), (G1 base_cnt eq_refl), (G2 base_cnt eq_refl).
  unfold raw. rewrite !main_nmeas.
  vm_compute. repeat split; reflexivity.
Qed.

(** C4. Sixteen samples of 5000 sum to 80000 and average to 5000; the
    16-bit accumulator of line 120 wraps to 14464 and the baseline comes
    out as 904. *)
Theorem baseline_sum_wraps (hw : loc -> Z) :
  let s := main (H := msp430g2553) (samples (repeat 5000 16)) hw 0 in
  nmeas s = 16%nat /\
  raw_sum (samples (repeat 5000 16)) 0 16 = 80000 /\
  Z.shiftr 80000 4 = 5000 /\
  s.[base_cnt] = 904.
Proof.
  intros s. subst s.
  destruct (main_power_up (H := msp430g2553) (samples (repeat 5000 16)) hw (fun _ => 0) 0) as (G0 & _).
  rewrite (G0 base_cnt eq_refl), main_nmeas.
  vm_compute. repeat split; reflexivity.
Qed.

(** C6. With a baseline of 1000 a saturated raw count of 65535 gives
    [delta_cnt = 1001] where the signed difference is -64535: the delta is
    positive although the raw count exceeds the baseline, the cycle
    reports a touch, and the baseline is not corrected. *)
Theorem delta_wraps (hw : loc -> Z) :
  let run := main (H := msp430g2553) (samples saturated_run) hw in
  (run 0%nat).[base_cnt] = 1000 /\
  raw (samples saturated_run) (run 0%nat) = 65535 /\
  (run 1%nat).[delta_cnt] = 1001 /\
  1000 - 65535 = -64535 /\
  (run 1%nat).[key_pressed] = 1 /\
  (run 1%nat).[base_cnt] = 1000 /\
  out (run 1%nat) =
    [Printformat report_format [1000; 65535; 1001];
     Println "Presense detected"].
Proof.
  intros run. subst run.
  destruct (main_power_up (H := msp430g2553) (samples saturated_run) hw (fun _ => 0) 0) as (G0 & _).
  destruct (main_power_up (H := msp430g2553) (samples saturated_run) hw (fun _ => 0) 1) as (G1 & _ & O1).
  rewrite (G0 base_cnt eq_refl), (G1 base_cnt eq_refl), (G1 delta_cnt eq_refl),
    (G1 key_pressed eq_refl), O1.
  unfold raw. rewrite main_nmeas.
  vm_compute. repeat split; reflexivity.
Qed.

(** ** Instances on the bench *)

Lemma touch_decision_witness :
  (loop_body (H := msp430g2553) (samples touch_run) (bench touch_run 0)).[delta_cnt] = 250 /\
  (loop_body (H := msp430g2553) (samples touch_run) (bench touch_run 0)).[key_pressed] = 1.
Proof.
  destruct (touch_decision (H := msp430g2553) (samples touch_run) (bench touch_run 0))
    as (_ & _ & _ & _ & Hex & _).
  apply Hex; vm_compute; reflexivity.
Defined.

Lemma touch_keeps_baseline_witness :
  (loop_body (H := msp430g2553) (samples touch_run) (bench touch_run 0)).[base_cnt] = 500.
Proof.
  destruct (touch_keeps_baseline (H := msp430g2553) (samples touch_run) (bench touch_run 0))
    as (_ & _ & Hb).
  - vm_compute. reflexivity.
  - rewrite Hb. vm_compute. reflexivity.
Defined.

Lemma fixed_point_idempotent_witness :
  (iterate 5 (loop_body (H := msp430g2553) (samples idle_run)) (bench idle_run 0)).[base_cnt] = 500 /\
  (iterate 5 (loop_body (H := msp430g2553) (samples idle_run)) (bench idle_run 0)).[key_pressed] = 0.
Proof.
  destruct (fixed_point_idempotent (H := msp430g2553) (samples idle_run) (bench idle_run 0) 5)
    with (k := 5%nat) as (Hb & Hk).
  - intros i Hi. do 5 (destruct i as [|i]; [vm_compute; reflexivity|]). lia.
  - lia.
  - split; [rewrite Hb; vm_compute; reflexivity | apply Hk; lia].
Defined.

Lemma sample_rate_control_witness :
  FAST (H := msp430g2553)
    (iterate 20 (loop_body (H := msp430g2553) (samples touch_run)) (bench touch_run 1)) /\
  SLOW (H := msp430g2553)
    (iterate 21 (loop_body (H := msp430g2553) (samples touch_run)) (bench touch_run 1)).
Proof.
  destruct (@sample_rate_control msp430g2553 msp430g2553_ok (samples touch_run)
              (bench touch_run 0))
    as (_ & _ & _ & Hfast & Hslow & _).
  - vm_compute. reflexivity.
  - split.
    + apply (Hfast 20%nat). lia.
    + apply Hslow. intros i Hi.
      do 21 (destruct i as [|i]; [vm_compute; reflexivity|]). lia.
Defined.

Lemma no_initial_grace_witness :
  SLOW (H := msp430g2553) (bench idle_run 1).
Proof.
  apply (@no_initial_grace msp430g2553 msp430g2553_ok (samples idle_run) (fun _ => 0)).
  vm_compute. reflexivity.
Defined.

Lemma measure_count_reinitializes_witness :
  (measure_arm (H := msp430g2553) 1 (bench idle_run 3)).[TAR] = (bench idle_run 3).[TAR] /\
  (measure_setup (H := msp430g2553) 1 (bench idle_run 3)).[TAR] = 0 /\
  (measure_count (H := msp430g2553) (samples idle_run) 1 (bench idle_run 3)).[meas_cnt] = 500 /\
  Z.land (measure_count (H := msp430g2553) (samples idle_run) 1 (bench idle_run 3)).[P2SEL2] 1 = 0.
Proof.
  destruct (@measure_count_reinitializes msp430g2553 msp430g2553_ok (samples idle_run) 1
              (bench idle_run 3))
    as ((_ & _ & _ & Ha) & (Hs & _) & Hm & _ & Hp & _).
  - vm_compute. intros E. discriminate E.
  - split; [exact Ha|]. split; [exact Hs|].
    split; [rewrite Hm; vm_compute; reflexivity | exact Hp].
Defined.

(** C8 as stated fails on the order of lines 138 and 139.  In the second
    cycle of a run that counts 500 edges per window, when line 138 has
    started the gate timer the counter still holds the 500 of the cycle
    before: it is not zero whenever the gate timer has been started. *)
Lemma counter_stale_when_gate_starts :
  ~ (forall (pin : Z) (s : state),
       Z.land (measure_arm (H := msp430g2553) pin s).[WDTCTL] (@WDTHOLD msp430g2553) = 0 ->
       (measure_arm (H := msp430g2553) pin s).[TAR] = 0).
Proof.
  intros Hall. specialize (Hall 1 (bench idle_run 1)).
  vm_compute in Hall. specialize (Hall eq_refl). discriminate Hall.
Qed.

(** ** Further instances on the bench *)

Ltac by_eval :=
  vm_compute; repeat split; first [reflexivity | discriminate | intros; discriminate].

Lemma get_base_count_average_witness :
  (get_base_count (H := msp430g2553) (samples idle_run) 1
     (power_up (fun _ => 0))).[base_cnt] = 500.
Proof.
  destruct (get_base_count_average (H := msp430g2553) (samples idle_run) 1
              (power_up (fun _ => 0))) as [Hb _].
  - by_eval.
  - rewrite Hb. by_eval.
Defined.

Lemma drift_fires_only_above_baseline_witness :
  (bench drift_run 0).[base_cnt] < raw (samples drift_run) (bench drift_run 0).
Proof.
  apply (drift_fires_only_above_baseline (H := msp430g2553) (samples drift_run)
           (fun _ => 0) 0).
  by_eval.
Defined.

Lemma measure_count_ports_witness :
  (measure_count (H := msp430g2553) (samples idle_run) 1 (bench idle_run 2)).[P2SEL2]
  = Z.land (bench idle_run 2).[P2SEL2] (Z.lnot 1).
Proof.
  destruct (measure_count_ports (H := msp430g2553) (samples idle_run) 1 (bench idle_run 2))
    as (_ & _ & Hsel2 & _); [by_eval | by_eval | by_eval | exact Hsel2].
Defined.

Lemma slow_is_stable_witness :
  SLOW (H := msp430g2553)
    (iterate 3 (loop_body (H := msp430g2553) (samples idle_run)) (bench idle_run 0)).
Proof.
  destruct (@slow_is_stable msp430g2553 msp430g2553_ok (samples idle_run)
              (bench idle_run 0) 3) with (k := 3%nat) as [Hs _].
  - by_eval.
  - intros i Hi. do 3 (destruct i as [|i]; [by_eval|]). lia.
  - lia.
  - exact Hs.
Defined.

Lemma calibration_preserved_witness :
  Z.land (bench touch_run 5).[BCSCTL1] 207 = 134.
Proof.
  exact (@calibration_preserved msp430g2553 msp430g2553_ok (samples touch_run)
           (fun _ => 0) 5).
Defined.

Lemma baseline_monotone_in_range_witness :
  (iterate 1 (loop_body (H := msp430g2553) (samples touch_run)) (bench touch_run 0)).[base_cnt]
  <= (iterate 2 (loop_body (H := msp430g2553) (samples touch_run)) (bench touch_run 0)).[base_cnt]
  < 32768.
Proof.
  apply (baseline_monotone_in_range (H := msp430g2553) (samples touch_run)
           (bench touch_run 0) 3).
  - by_eval.
  - intros i Hi. do 3 (destruct i as [|i]; [by_eval|]). lia.
  - lia.
Defined.

Lemma cycle_exact_below_32768_witness :
  (loop_body (H := msp430g2553) (samples touch_run) (bench touch_run 0)).[delta_cnt]
  = (bench touch_run 0).[base_cnt] - raw (samples touch_run) (bench touch_run 0).
Proof.
  destruct (cycle_exact_below_32768 (H := msp430g2553) (samples touch_run)
              (bench touch_run 0)) as (Hd & _); [by_eval | by_eval | exact Hd].
Defined.

Lemma divider_invariant_witness :
  FAST (H := msp430g2553) (bench touch_run 1) \/ SLOW (H := msp430g2553) (bench touch_run 1).
Proof.
  destruct (@divider_invariant msp430g2553 msp430g2553_ok (samples touch_run)
              (fun _ => 0) 0) as (Hdiv & _).
  exact Hdiv.
Defined.
